(** * lb.github.io: the site's declarations, embedded and checked

    The repository holds no algorithms of its own: two configuration
    modules ([astro.config.mjs], [tailwind.config.mjs]) and one Markdown
    article ([src/content/blog/big-query/index.md]).  This development
    transcribes the three files as data and states the repository's
    validity properties over that data.

    - [Text]        characters and strings;
    - [Js]          a small expression language for the two configuration
                    modules, with an evaluator over a build host;
    - [Astro]       [astro.config.mjs];
    - [Tailwind]    [tailwind.config.mjs];
    - [Url], [Color], [Glob], [Date], [FrontMatter], [Markdown]
                    the syntactic checks the properties speak about;
    - [Repository]  the paths of the repository's files;
    - [BigQuery]    the article, line by line. *)

From Stdlib Require Import String Ascii List Bool Arith Lia.
Import ListNotations.
Open Scope string_scope.
Open Scope bool_scope.

Set Warnings "-register-all".

(** ** Characters and strings *)

Module Text.

(** The double-quote character (code 34). *)
Definition dq_char : ascii := "034"%char.
Definition dq : string := String dq_char EmptyString.

(** [q s] is [s] between double quotes, as it is written in a file. *)
Definition q (s : string) : string := dq ++ s ++ dq.

Definition chars : string -> list ascii := list_ascii_of_string.
Definition text : list ascii -> string := string_of_list_ascii.

Definition between (lo hi : nat) (c : ascii) : bool :=
  Nat.leb lo (nat_of_ascii c) && Nat.leb (nat_of_ascii c) hi.

Definition is_digit : ascii -> bool := between 48 57.
Definition is_lower : ascii -> bool := between 97 122.
Definition is_upper : ascii -> bool := between 65 90.
Definition is_alpha (c : ascii) : bool := is_lower c || is_upper c.
Definition is_alnum (c : ascii) : bool := is_alpha c || is_digit c.
Definition is_lower_hex (c : ascii) : bool := is_digit c || between 97 102 c.
Definition is_space (c : ascii) : bool :=
  Ascii.eqb c " "%char || Ascii.eqb c "009"%char.

Definition one_of (s : string) (c : ascii) : bool :=
  existsb (Ascii.eqb c) (chars s).

Fixpoint drop_while (p : ascii -> bool) (l : list ascii) : list ascii :=
  match l with
  | c :: l' => if p c then drop_while p l' else l
  | [] => []
  end.

Fixpoint take_while (p : ascii -> bool) (l : list ascii) : list ascii :=
  match l with
  | c :: l' => if p c then c :: take_while p l' else []
  | [] => []
  end.

Definition trim_left : list ascii -> list ascii := drop_while is_space.
Definition trim_right (l : list ascii) : list ascii :=
  rev (drop_while is_space (rev l)).
Definition trim (l : list ascii) : list ascii := trim_right (trim_left l).

(** [strip_prefix p l] is what follows [p] in [l], when [l] starts with [p]. *)
Fixpoint strip_prefix (p l : list ascii) : option (list ascii) :=
  match p, l with
  | [], _ => Some l
  | a :: p', b :: l' => if Ascii.eqb a b then strip_prefix p' l' else None
  | _ :: _, [] => None
  end.

(** [split_on sep l] cuts [l] at every [sep]; it always returns at least
    one piece. *)
Fixpoint split_on (sep : ascii) (l : list ascii) : list (list ascii) :=
  match l with
  | [] => [[]]
  | c :: l' =>
      if Ascii.eqb c sep then [] :: split_on sep l'
      else match split_on sep l' with
           | piece :: rest => (c :: piece) :: rest
           | [] => [[c]]
           end
  end.

Definition chars_eqb (a b : list ascii) : bool :=
  String.eqb (text a) (text b).

(** Decimal numerals. *)
Definition digit_value (c : ascii) : nat := nat_of_ascii c - 48.

Definition number (l : list ascii) : option nat :=
  match l with
  | [] => None
  | _ => if forallb is_digit l
         then Some (fold_left (fun n c => 10 * n + digit_value c) l 0)
         else None
  end.

(** Boolean duplicate-freeness of a list of strings. *)
Fixpoint distinct (l : list string) : bool :=
  match l with
  | [] => true
  | x :: l' => negb (existsb (String.eqb x) l') && distinct l'
  end.

End Text.

(** ** The configuration modules' language

    Both configuration files are ES modules made of imports and one
    [export default] of an expression built from string literals, array
    and object literals, calls of imported functions and [require]. *)

Module Js.

Inductive expr : Type :=
| EStr (s : string)                       (* 'text' *)
| EArr (items : list expr)                (* [e, ...] *)
| EObj (fields : list (string * expr))    (* { key: e, ... } in source order *)
| ECall (callee : string) (args : list expr)  (* f(e, ...) *)
| ERequire (spec : string)                (* require('module') *)
| EEnv (name : string).                   (* process.env.NAME *)

Inductive stmt : Type :=
| SImportNamed (names : list string) (from : string)  (* import { a } from 'm' *)
| SImportDefault (name : string) (from : string)      (* import a from 'm' *)
| SExportDefault (e : expr)                           (* export default e *)
| SAssign (target : list string) (e : expr)           (* a.b = e *)
| SExpr (e : expr).                                   (* e; *)

Definition module := list stmt.

(** Values.  What an imported function or [require] returns belongs to the
    package it comes from; it is kept as the handle that produced it. *)
Inductive value : Type :=
| VStr (s : string)
| VArr (items : list value)
| VObj (fields : list (string * value))
| VCalled (callee from : string) (args : list value)
| VRequired (spec : string)
| VUndefined.

(** What a build supplies from outside the repository: the process
    environment. *)
Record host : Type := { env : string -> option string }.

(** The names a module's imports bind, each with the package it is from. *)
Fixpoint imports (m : module) : list (string * string) :=
  match m with
  | SImportNamed names from :: m' => map (fun n => (n, from)) names ++ imports m'
  | SImportDefault name from :: m' => (name, from) :: imports m'
  | _ :: m' => imports m'
  | [] => []
  end.

Fixpoint lookup {A : Type} (k : string) (l : list (string * A)) : option A :=
  match l with
  | (k', v) :: l' => if String.eqb k k' then Some v else lookup k l'
  | [] => None
  end.

Definition keys {A : Type} (l : list (string * A)) : list string := map fst l.

(** [all_some l] is the list of the values when none is missing. *)
Fixpoint all_some {A : Type} (l : list (option A)) : option (list A) :=
  match l with
  | [] => Some []
  | Some x :: l' => option_map (cons x) (all_some l')
  | None :: _ => None
  end.

Definition bind {A B : Type} (o : option A) (f : A -> option B) : option B :=
  match o with Some x => f x | None => None end.

Section Eval.

Variable h : host.
Variable scope : list (string * string).

(** The value of an expression.  A call of an imported function and a
    [require] are kept as handles: what the package returns, or whether it
    throws, lies outside the repository and is not modelled, so a value
    tells how the literal is built, not what a build computes from it.
    Evaluation fails ([None]) on a call of a name that no import binds. *)
Fixpoint eval (e : expr) : option value :=
  match e with
  | EStr s => Some (VStr s)
  | EArr items => option_map VArr (all_some (map eval items))
  | EObj fields =>
      option_map VObj
        (all_some (map (fun kv => option_map (pair (fst kv)) (eval (snd kv)))
                       fields))
  | ECall f args =>
      match lookup f scope with
      | Some from => option_map (VCalled f from) (all_some (map eval args))
      | None => None
      end
  | ERequire spec => Some (VRequired spec)
  | EEnv name =>
      Some (match env h name with Some s => VStr s | None => VUndefined end)
  end.

End Eval.

(** The expression a module exports by default. *)
Fixpoint default_export (m : module) : option expr :=
  match m with
  | SExportDefault e :: _ => Some e
  | _ :: m' => default_export m'
  | [] => None
  end.

(** Evaluating a module: its default export, in the scope of its imports. *)
Definition eval_module (h : host) (m : module) : option value :=
  match default_export m with
  | Some e => eval h (imports m) e
  | None => None
  end.

(** Field access on a value. *)
Definition field (k : string) (v : value) : option value :=
  match v with
  | VObj fields => lookup k fields
  | _ => None
  end.

(** The value found by following a path of field names. *)
Fixpoint at_path (path : list string) (v : value) : option value :=
  match path with
  | [] => Some v
  | k :: path' => bind (field k v) (at_path path')
  end.

Definition as_string (v : value) : option string :=
  match v with VStr s => Some s | _ => None end.

Definition as_array (v : value) : option (list value) :=
  match v with VArr l => Some l | _ => None end.

Definition as_object (v : value) : option (list (string * value)) :=
  match v with VObj l => Some l | _ => None end.

(** The field names of the object found at a path, in source order. *)
Definition keys_at (path : list string) (v : value) : option (list string) :=
  option_map keys (bind (at_path path v) as_object).

Definition as_strings (v : value) : option (list string) :=
  match v with
  | VArr l => all_some (map as_string l)
  | _ => None
  end.

End Js.

(** ** astro.config.mjs *)

Module Astro.
Import Js.

(** The object literal passed to [defineConfig]. *)
Definition options : expr :=
  EObj [ ("site", EStr "https://lab176344.github.io");
         ("base", EStr "/");
         ("integrations", EArr [ECall "tailwind" []]) ].

Definition config_module : module :=
  [ SImportNamed ["defineConfig"] "astro/config";
    SImportDefault "tailwind" "@astrojs/tailwind";
    SExportDefault (ECall "defineConfig" [options]) ].

(** The site configuration record: what [defineConfig] is given. *)
Definition site_config (h : host) : option value :=
  match eval_module h config_module with
  | Some (VCalled "defineConfig" "astro/config" [v]) => Some v
  | _ => None
  end.

Record site_record : Type := {
  siteURL : string;
  basePath : string;
  enabledIntegrations : list value
}.

(** Reading the record's three fields off the configuration value. *)
Definition decode (v : value) : option site_record :=
  match field "site" v, field "base" v, field "integrations" v with
  | Some (VStr s), Some (VStr b), Some (VArr l) =>
      Some {| siteURL := s; basePath := b; enabledIntegrations := l |}
  | _, _, _ => None
  end.

(** The site configuration record of a build. *)
Definition site (h : host) : option site_record := bind (site_config h) decode.

(** The handle of the utility-CSS integration: the result of calling the
    default export of [@astrojs/tailwind] with no argument. *)
Definition tailwind_integration : value :=
  VCalled "tailwind" "@astrojs/tailwind" [].

End Astro.

(** ** tailwind.config.mjs *)

Module Tailwind.
Import Js Text.

Definition config_expr : expr :=
  EObj [
    ("content",
      EArr [EStr "./src/**/*.{astro,html,js,jsx,md,mdx,svelte,ts,tsx,vue}"]);
    ("theme", EObj [
      ("extend", EObj [
        ("colors", EObj [
          ("tui", EObj [
            ("bg", EStr "#1a1b26");
            ("fg", EStr "#a9b1d6");
            ("accent", EStr "#9ece6a");
            ("dim", EStr "#565f89");
            ("border", EStr "#414868");
            ("selection", EStr "#33467c") ]) ]);
        ("fontFamily", EObj [
          ("mono", EArr [ EStr (q "JetBrains Mono");
                          EStr (q "Fira Code");
                          EStr "monospace" ]) ]) ]) ]);
    ("plugins", EArr [ERequire "@tailwindcss/typography"]) ].

Definition config_module : module := [ SExportDefault config_expr ].

Definition theme_config (h : host) : option value :=
  eval_module h config_module.

Record theme_record : Type := {
  contentGlobs : list string;
  colorTokens : list (string * string);
  fontTokens : list (string * list string);
  plugins : list value
}.

(** A mapping whose every value is a string. *)
Definition string_fields (l : list (string * value))
  : option (list (string * string)) :=
  all_some (map (fun kv => option_map (pair (fst kv)) (as_string (snd kv))) l).

(** A mapping whose every value is an array of strings. *)
Definition strings_fields (l : list (string * value))
  : option (list (string * list string)) :=
  all_some (map (fun kv => option_map (pair (fst kv)) (as_strings (snd kv))) l).

(** Reading the theme record off the configuration value: the globs are
    [content], the colour tokens are the [tui] palette of
    [theme.extend.colors], the font tokens are [theme.extend.fontFamily],
    the plugins are [plugins]. *)
Definition decode (v : value) : option theme_record :=
  bind (bind (field "content" v) as_strings) (fun globs =>
  bind (bind (field "theme" v) (field "extend")) (fun ext =>
  bind (bind (bind (bind (field "colors" ext) (field "tui")) as_object)
             string_fields) (fun colors =>
  bind (bind (bind (field "fontFamily" ext) as_object) strings_fields)
       (fun fonts =>
  bind (bind (field "plugins" v) as_array) (fun ps =>
  Some {| contentGlobs := globs; colorTokens := colors;
          fontTokens := fonts; plugins := ps |}))))).

(** The theme configuration record of a build. *)
Definition theme (h : host) : option theme_record := bind (theme_config h) decode.

Definition typography_plugin : value := VRequired "@tailwindcss/typography".

(** The [mono] font stack. *)
Definition mono_stack (r : theme_record) : option (list string) :=
  lookup "mono" (fontTokens r).

(** CSS's generic family names. *)
Definition generic_families : list string :=
  [ "serif"; "sans-serif"; "monospace"; "cursive"; "fantasy"; "system-ui" ].

End Tailwind.

(** ** URLs and URL paths (RFC 3986) *)

Module Url.
Import Text.

Definition unreserved (c : ascii) : bool := is_alnum c || one_of "-._~" c.
Definition sub_delim (c : ascii) : bool := one_of "!$&'()*+,;=" c.
Definition pchar (c : ascii) : bool :=
  unreserved c || sub_delim c || one_of ":@" c.
Definition is_hex (c : ascii) : bool :=
  is_digit c || between 97 102 c || between 65 70 c.

(** A scheme is a letter followed by letters, digits, [+], [-] or [.]. *)
Definition scheme_ok (l : list ascii) : bool :=
  match l with
  | c :: l' =>
      is_alpha c && forallb (fun d => is_alnum d || one_of "+-." d) l'
  | [] => false
  end.

(** A registered host name: not empty, of unreserved characters and
    sub-delimiters. *)
Definition host_ok (l : list ascii) : bool :=
  match l with
  | [] => false
  | _ => forallb (fun c => unreserved c || sub_delim c) l
  end.

(** Path characters: [pchar], [/], and [%] followed by two hex digits. *)
Fixpoint path_chars (l : list ascii) : bool :=
  match l with
  | [] => true
  | c :: l' =>
      if Ascii.eqb c "%"
      then match l' with
           | a :: b :: _ => is_hex a && is_hex b && path_chars l'
           | _ => false
           end
      else (pchar c || Ascii.eqb c "/") && path_chars l'
  end.

(** [path-abempty]: empty, or starting with [/]. *)
Definition path_abempty (l : list ascii) : bool :=
  match l with
  | [] => true
  | c :: _ => Ascii.eqb c "/" && path_chars l
  end.

(** [path-absolute]: starts with [/], but not with [//]. *)
Definition path_absolute (l : list ascii) : bool :=
  match l with
  | c :: l' =>
      Ascii.eqb c "/" && path_chars l' &&
      match l' with
      | d :: _ => negb (Ascii.eqb d "/")
      | [] => true
      end
  | [] => false
  end.

Record url : Type := {
  scheme : string;
  host : string;
  port : option nat;
  path : string
}.

(** The part of [l] before the first [c] and the part after it. *)
Fixpoint cut (c : ascii) (l : list ascii) : option (list ascii * list ascii) :=
  match l with
  | [] => None
  | d :: l' =>
      if Ascii.eqb d c then Some ([], l')
      else option_map (fun p => (d :: fst p, snd p)) (cut c l')
  end.

Definition authority (l : list ascii) : option (string * option nat) :=
  match cut ":" l with
  | None => if host_ok l then Some (text l, None) else None
  | Some (hst, prt) =>
      match number prt with
      | Some n => if host_ok hst then Some (text hst, Some n) else None
      | None => None
      end
  end.

(** An absolute URL with an authority:
    [scheme "://" host [":" port] path-abempty]. *)
Definition parse (s : string) : option url :=
  match cut ":" (chars s) with
  | Some (sch, rest) =>
      match strip_prefix (chars "//") rest with
      | Some rest' =>
          let auth := take_while (fun c => negb (Ascii.eqb c "/")) rest' in
          let pth := drop_while (fun c => negb (Ascii.eqb c "/")) rest' in
          match authority auth with
          | Some (hst, prt) =>
              if scheme_ok sch && path_abempty pth
              then Some {| scheme := text sch; host := hst;
                           port := prt; path := text pth |}
              else None
          | None => None
          end
      | None => None
      end
  | None => None
  end.

Definition valid_absolute_url (s : string) : bool :=
  match parse s with Some _ => true | None => false end.

Definition valid_path_prefix (s : string) : bool := path_absolute (chars s).

End Url.

(** ** Colour values *)

Module Color.
Import Text.

(** [#] followed by six lowercase hexadecimal digits. *)
Definition is_hex_color (s : string) : bool :=
  match chars s with
  | c :: ds =>
      Ascii.eqb c "#" && Nat.eqb (List.length ds) 6 && forallb is_lower_hex ds
  | [] => false
  end.

(** The same as a proposition: seven characters, [#] and six digits, each
    one of [0]..[9], [a]..[f]. *)
Definition hex_color (s : string) : Prop :=
  exists ds : list ascii,
    s = String "#" (text ds) /\
    List.length ds = 6 /\
    Forall (fun c => In c (chars "0123456789abcdef")) ds.

End Color.

(** ** Glob patterns *)

Module Glob.
Import Text.

Inductive token : Type :=
| Lit (c : ascii)
| Star                              (* any run of characters within a name *)
| Alt (alts : list (list ascii)).   (* {a,b,...} *)

Inductive segment : Type :=
| GlobStar                          (* any number of directories *)
| Seg (toks : list token).

(** Tokens of one path segment; [br] holds the alternatives read so far
    while inside braces (finished ones, and the current one reversed). *)
Fixpoint tokens (l : list ascii)
    (br : option (list (list ascii) * list ascii)) : option (list token) :=
  match l, br with
  | [], None => Some []
  | [], Some _ => None
  | c :: l', None =>
      if Ascii.eqb c "{" then tokens l' (Some ([], []))
      else if Ascii.eqb c "*" then option_map (cons Star) (tokens l' None)
      else option_map (cons (Lit c)) (tokens l' None)
  | c :: l', Some (done, cur) =>
      if Ascii.eqb c "}"
      then option_map (cons (Alt (rev (rev cur :: done)))) (tokens l' None)
      else if Ascii.eqb c ","
      then tokens l' (Some (rev cur :: done, []))
      else tokens l' (Some (done, c :: cur))
  end.

Definition segment_of (l : list ascii) : option segment :=
  if chars_eqb l (chars "**") then Some GlobStar
  else option_map Seg (tokens l None).

(** The segments of a path or pattern, without [.] segments. *)
Definition segments (s : string) : list (list ascii) :=
  filter (fun seg => negb (chars_eqb seg (chars "."))) (split_on "/" (chars s)).

Definition compile (pattern : string) : option (list segment) :=
  Js.all_some (map segment_of (segments pattern)).

(** A name that starts with a dot is matched only by a literal dot. *)
Definition hidden (name : list ascii) : bool :=
  match name with
  | c :: _ => Ascii.eqb c "."
  | [] => false
  end.

Fixpoint match_tokens (toks : list token) : list ascii -> bool :=
  match toks with
  | [] => fun s => match s with [] => true | _ :: _ => false end
  | Lit c :: toks' =>
      fun s => match s with
               | d :: s' => Ascii.eqb c d && match_tokens toks' s'
               | [] => false
               end
  | Star :: toks' =>
      fix star (s : list ascii) : bool :=
        match_tokens toks' s ||
        match s with
        | _ :: s' => star s'
        | [] => false
        end
  | Alt alts :: toks' =>
      fun s => existsb (fun a => match strip_prefix a s with
                                 | Some s' => match_tokens toks' s'
                                 | None => false
                                 end) alts
  end.

Definition leading_dot (toks : list token) : bool :=
  match toks with
  | Lit c :: _ => Ascii.eqb c "."
  | _ => false
  end.

Definition match_name (toks : list token) (name : list ascii) : bool :=
  (negb (hidden name) || leading_dot toks) && match_tokens toks name.

Fixpoint match_path (ps : list segment) : list (list ascii) -> bool :=
  match ps with
  | [] => fun path => match path with [] => true | _ :: _ => false end
  | GlobStar :: ps' =>
      fix skip (path : list (list ascii)) : bool :=
        match_path ps' path ||
        match path with
        | dir :: rest => negb (hidden dir) && skip rest
        | [] => false
        end
  | Seg toks :: ps' =>
      fun path => match path with
                  | name :: rest => match_name toks name && match_path ps' rest
                  | [] => false
                  end
  end.

(** [matches pattern file]: both are relative to the repository's root. *)
Definition matches (pattern file : string) : bool :=
  match compile pattern with
  | Some ps => match_path ps (segments file)
  | None => false
  end.

(** The file types a pattern names: the alternatives of its last brace
    group. *)
Definition last_alts (toks : list token) : list string :=
  match rev toks with
  | Alt alts :: _ => map text alts
  | _ => []
  end.

Definition types_of (pattern : string) : list string :=
  match compile pattern with
  | Some ps => match rev ps with
               | Seg toks :: _ => last_alts toks
               | _ => []
               end
  | None => []
  end.

(** The extension of a file: what follows its last dot. *)
Definition extension (file : string) : string :=
  match rev (split_on "." (chars file)) with
  | ext :: _ :: _ => text ext
  | _ => ""
  end.

Definition of_intended_type (pattern file : string) : bool :=
  existsb (String.eqb (extension file)) (types_of pattern).

End Glob.

(** The files of the repository, relative to its root. *)
Module Repository.

Definition astro_config : string := "astro.config.mjs".
Definition tailwind_config : string := "tailwind.config.mjs".
Definition big_query_article : string := "src/content/blog/big-query/index.md".

Definition files : list string :=
  [ astro_config; tailwind_config; big_query_article ].

End Repository.

(** ** Calendar dates *)

Module Date.
Import Text.

Record date : Type := { year : nat; month : nat; day : nat }.

Definition leap (y : nat) : bool :=
  Nat.eqb (y mod 4) 0 && (negb (Nat.eqb (y mod 100) 0) || Nat.eqb (y mod 400) 0).

Definition days_in_month (y m : nat) : nat :=
  match m with
  | 1 | 3 | 5 | 7 | 8 | 10 | 12 => 31
  | 4 | 6 | 9 | 11 => 30
  | 2 => if leap y then 29 else 28
  | _ => 0
  end.

Definition valid (d : date) : bool :=
  Nat.leb 1 (month d) && Nat.leb (month d) 12 &&
  Nat.leb 1 (day d) && Nat.leb (day d) (days_in_month (year d) (month d)).

(** The date of a [YYYY-MM-DD] string, when it names a day of the calendar. *)
Definition parse (s : string) : option date :=
  match split_on "-" (chars s) with
  | [y; m; d] =>
      match number y, number m, number d with
      | Some yy, Some mm, Some dd =>
          let r := {| year := yy; month := mm; day := dd |} in
          if Nat.eqb (List.length y) 4 && Nat.eqb (List.length m) 2 &&
             Nat.eqb (List.length d) 2 && valid r
          then Some r else None
      | _, _, _ => None
      end
  | _ => None
  end.

End Date.

(** ** Front-matter: the metadata block between two [---] lines *)

Module FrontMatter.
Import Text.

Inductive entry : Type :=
| Scalar (s : string)                (* key: "text"   or   key: text *)
| Sequence (items : list string).    (* key: ["a", "b"] *)

(** The text between the double quotes of a quoted scalar. *)
Definition unquote (l : list ascii) : option (list ascii) :=
  match l with
  | c :: l' =>
      match rev l' with
      | d :: r =>
          if Ascii.eqb c dq_char && Ascii.eqb d dq_char &&
             negb (existsb (Ascii.eqb dq_char) r)
          then Some (rev r) else None
      | [] => None
      end
  | [] => None
  end.

(** One item, quoted or plain; an empty item is refused. *)
Definition item (l : list ascii) : option string :=
  match trim l with
  | [] => None
  | (c :: _) as t =>
      if Ascii.eqb c dq_char then option_map text (unquote t)
      else Some (text t)
  end.

(** A flow sequence [[a, b, ...]]. *)
Definition sequence (l : list ascii) : option (list string) :=
  match l with
  | c :: l' =>
      match rev l' with
      | d :: r =>
          if Ascii.eqb c "[" && Ascii.eqb d "]"
          then Js.all_some (map item (split_on "," (rev r)))
          else None
      | [] => None
      end
  | [] => None
  end.

Definition value (l : list ascii) : option entry :=
  match trim l with
  | (c :: _) as t =>
      if Ascii.eqb c "[" then option_map Sequence (sequence t)
      else option_map Scalar (item t)
  | [] => None
  end.

(** One [key: value] line. *)
Definition field (line : string) : option (string * entry) :=
  match Url.cut ":" (chars line) with
  | Some (k, v) =>
      match trim k with
      | [] => None
      | key => option_map (pair (text key)) (value v)
      end
  | None => None
  end.

Definition is_delimiter (line : string) : bool :=
  chars_eqb (trim_right (chars line)) (chars "---").

(** The lines up to the next delimiter, and the lines after it. *)
Fixpoint until_delimiter (lines : list string)
  : option (list string * list string) :=
  match lines with
  | [] => None
  | l :: rest =>
      if is_delimiter l then Some ([], rest)
      else option_map (fun p => (l :: fst p, snd p)) (until_delimiter rest)
  end.

(** A file is a delimiter, the metadata lines, a delimiter, the body. *)
Definition split (lines : list string) : option (list string * list string) :=
  match lines with
  | l :: rest => if is_delimiter l then until_delimiter rest else None
  | [] => None
  end.

Definition fields (lines : list string) : option (list (string * entry)) :=
  match split lines with
  | Some (meta, _) => Js.all_some (map field meta)
  | None => None
  end.

Definition body (lines : list string) : list string :=
  match split lines with
  | Some (_, b) => b
  | None => lines
  end.

(** The line of the file at which the body starts (lines count from 1). *)
Definition body_start (lines : list string) : nat :=
  S (List.length lines - List.length (body lines)).

(** The content document. *)
Record document : Type := {
  title : string;
  description : string;
  publishDate : Date.date;
  tags : list string
}.

(** The required fields, each with its type. *)
Definition decode (fs : list (string * entry)) : option document :=
  match Js.lookup "title" fs, Js.lookup "description" fs,
        Js.lookup "pubDate" fs, Js.lookup "tags" fs with
  | Some (Scalar t), Some (Scalar d), Some (Scalar p), Some (Sequence ts) =>
      match Date.parse p with
      | Some date =>
          Some {| title := t; description := d;
                  publishDate := date; tags := ts |}
      | None => None
      end
  | _, _, _, _ => None
  end.

Definition read (lines : list string) : option document :=
  match fields lines with
  | Some fs => decode fs
  | None => None
  end.

End FrontMatter.

(** ** Markdown: fenced code blocks and tables *)

Module Markdown.
Import Text.

Definition is_tick (c : ascii) : bool := Ascii.eqb c "`".
Definition is_tilde (c : ascii) : bool := Ascii.eqb c "~".
Definition is_blank (c : ascii) : bool := Ascii.eqb c " ".

Definition indent (l : list ascii) : nat := List.length (take_while is_blank l).

(** The fence character a line starts with after its indentation: a
    backtick or a tilde. *)
Definition fence_char (l : list ascii) : option ascii :=
  match drop_while is_blank l with
  | c :: _ => if is_tick c || is_tilde c then Some c else None
  | [] => None
  end.

(** The run of [c] after the indentation, and what follows the run. *)
Definition run (c : ascii) (l : list ascii) : nat :=
  List.length (take_while (Ascii.eqb c) (drop_while is_blank l)).
Definition info (c : ascii) (l : list ascii) : list ascii :=
  drop_while (Ascii.eqb c) (drop_while is_blank l).

Record fence : Type := { mark : ascii; width : nat }.

(** An opening fence: at most three spaces, at least three fence
    characters, and, for backticks, an info string without backticks. *)
Definition opens (line : string) : option fence :=
  let l := chars line in
  match fence_char l with
  | Some c =>
      if Nat.leb (indent l) 3 && Nat.leb 3 (run c l) &&
         (is_tilde c || negb (existsb is_tick (info c l)))
      then Some {| mark := c; width := run c l |} else None
  | None => None
  end.

(** A closing fence for a block opened by [f]: the same character, at
    least as many times, and nothing but spaces after the run. *)
Definition closes (f : fence) (line : string) : bool :=
  let l := chars line in
  Nat.leb (indent l) 3 && Nat.leb (width f) (run (mark f) l) &&
  forallb is_space (info (mark f) l).

Inductive state : Type :=
| Outside
| Inside (f : fence).

Inductive kind : Type :=
| Prose      (* a line outside every code block *)
| Open       (* an opening fence *)
| Close      (* a closing fence *)
| Code.      (* a line of a code block *)

Definition step (st : state) (line : string) : state * kind :=
  match st with
  | Outside =>
      match opens line with
      | Some f => (Inside f, Open)
      | None => (Outside, Prose)
      end
  | Inside f =>
      if closes f line then (Outside, Close) else (Inside f, Code)
  end.

(** The kind of every line, and the state after the last one. *)
Fixpoint scan (st : state) (lines : list string) : list kind * state :=
  match lines with
  | [] => ([], st)
  | l :: rest =>
      let (st', k) := step st l in
      let (ks, final) := scan st' rest in
      (k :: ks, final)
  end.

Definition kinds (lines : list string) : list kind := fst (scan Outside lines).
Definition final (lines : list string) : state := snd (scan Outside lines).

Definition is_delimiter (k : kind) : bool :=
  match k with Open | Close => true | Prose | Code => false end.

Definition is_open (k : kind) : bool :=
  match k with Open => true | _ => false end.

Definition is_close (k : kind) : bool :=
  match k with Close => true | _ => false end.

Definition count (p : kind -> bool) (lines : list string) : nat :=
  List.length (filter p (kinds lines)).

(** Every fence that is opened is closed. *)
Definition fences_balanced (lines : list string) : bool :=
  match final lines with Outside => true | Inside _ => false end.

(** The number of fences that are open in a state. *)
Definition depth (st : state) : nat :=
  match st with Outside => 0 | Inside _ => 1 end.

(** The code blocks as pairs (line of the opening fence, line of the closing
    fence); the first line of [lines] has number [n]. *)
Fixpoint blocks (n : nat) (opened : option nat) (ks : list kind)
  : list (nat * nat) :=
  match ks with
  | [] => []
  | Open :: ks' => blocks (S n) (Some n) ks'
  | Close :: ks' =>
      match opened with
      | Some o => (o, n) :: blocks (S n) None ks'
      | None => blocks (S n) None ks'
      end
  | _ :: ks' => blocks (S n) opened ks'
  end.

(** *** Tables *)

Definition backslash : ascii := "092"%char.

(** The pieces of a row between its unescaped pipes. *)
Fixpoint pieces (l : list ascii) : list (list ascii) :=
  match l with
  | [] => [[]]
  | c :: l' =>
      if Ascii.eqb c "|" then [] :: pieces l'
      else
        let push (x : ascii) (ps : list (list ascii)) :=
          match ps with
          | p :: rest => (x :: p) :: rest
          | [] => [[x]]
          end in
        if Ascii.eqb c backslash
        then match l' with
             | d :: l'' => push c (push d (pieces l''))
             | [] => [[c]]
             end
        else push c (pieces l')
  end.

Definition blank (l : list ascii) : bool := forallb is_space l.

Definition drop_blank_head (ps : list (list ascii)) : list (list ascii) :=
  match ps with
  | p :: rest => if blank p then rest else ps
  | [] => []
  end.

(** The cells of a row: its pieces, without the empty piece before a
    leading pipe and the one after a trailing pipe, each trimmed. *)
Definition cells (line : string) : list (list ascii) :=
  map trim
    (rev (drop_blank_head (rev (drop_blank_head (pieces (chars line)))))).

(** A cell of the delimiter row: dashes, with an optional colon on either
    side. *)
Definition delimiter_cell (l : list ascii) : bool :=
  let strip_colon (x : list ascii) :=
    match x with
    | c :: x' => if Ascii.eqb c ":" then x' else x
    | [] => []
    end in
  let dashes := rev (strip_colon (rev (strip_colon l))) in
  match dashes with
  | [] => false
  | _ => forallb (fun c => Ascii.eqb c "-") dashes
  end.

Definition is_row (line : string) : bool :=
  match trim_left (chars line) with
  | c :: _ => Ascii.eqb c "|"
  | [] => false
  end.

(** The tables of a document: the maximal runs of consecutive prose lines
    that are rows.  [cur] is the run being read, last row first. *)
Fixpoint tables_from (cur : list string) (ls : list (kind * string))
  : list (list string) :=
  let flush (ts : list (list string)) :=
    match cur with
    | [] => ts
    | _ => rev cur :: ts
    end in
  match ls with
  | [] => flush []
  | (Prose, l) :: rest =>
      if is_row l then tables_from (l :: cur) rest
      else flush (tables_from [] rest)
  | _ :: rest => flush (tables_from [] rest)
  end.

Definition tables (lines : list string) : list (list string) :=
  tables_from [] (combine (kinds lines) lines).

(** The number of columns of a table whose rows agree: a header row, a
    delimiter row with as many valid cells, and body rows with as many
    cells each. *)
Definition columns (rows : list string) : option nat :=
  match rows with
  | header :: delim :: rest =>
      let n := List.length (cells header) in
      if Nat.leb 1 n &&
         Nat.eqb (List.length (cells delim)) n &&
         forallb delimiter_cell (cells delim) &&
         forallb (fun r => Nat.eqb (List.length (cells r)) n) rest
      then Some n else None
  | _ => None
  end.

Definition table_ok (rows : list string) : bool :=
  match columns rows with Some _ => true | None => false end.

Definition well_formed (lines : list string) : bool :=
  fences_balanced lines && forallb table_ok (tables lines).

End Markdown.

(** ** src/content/blog/big-query/index.md

    The article, one string per line of the file, in order and without
    the line terminators; [q s] stands for [s] between double quotes. *)

Module BigQuery.
Import Text.

Definition lines : list string := [
  "---";
  "title: " ++ q "A Guide to BigQuery Optimisation: Performance, Cost, and Architecture";
  "description: " ++ q "An overview of BigQuery architecture, storage strategies, and query optimisation techniques based on real-world case studies.";
  "pubDate: " ++ q "2026-02-13";
  "tags: [" ++ q "big-query" ++ ", " ++ q "gcp" ++ ", " ++ q "data-engineering" ++ ", " ++ q "sql-optimisation" ++ "]";
  "---";
  "";
  "BigQuery is a tool for processing large datasets, but its performance and";
  "cost depend on how it is used. Without an understanding of its architecture,";
  "queries can be slow and expensive.";
  " Unlike traditional relational databases where performance is often";
  "measured by execution time, BigQuery demands a shift in focus: **you are billed";
  "for the data you scan, not the time you spend scanning it.**";
  "";
  "We are focusing only on the on-demand pay-as-you-go model, as it is the most common and relevant for optimisation.";
  "";
  "## 1. Understanding the Architecture: Storage vs. Compute";
  "";
  "To optimise BigQuery, you must first understand how it separates storage from";
  "compute. Your data lives in **Colossus**, Google’s distributed file system,";
  "stored in a proprietary columnar format called **Capacitor**. When you execute a";
  "query, the **Dremel** engine allocates compute slots to process that data.";
  "";
  "The connection between these two layers is a high-bandwidth network.";
  " While this network ensures fast data movement from storage to compute,";
  "data movement *between* compute slots (shuffling) during complex";
  "operations like joins or aggregations is a common performance bottleneck.";
  "The initial load bottleneck is usually the sheer volume of data being";
  "pulled from storage.";
  "";
  "### The Billing Model";
  "";
  "* **On-Demand:** Costs depend on the amount of data scanned.";
  "* **Storage:** Costs depend on the volume of data stored, with lower rates for";
  "  data that has not been modified for 90 days.";
  "";
  "**Key Takeaway:** A 5-second query isn't necessarily a cheap query. Always watch";
  "the " ++ q "bytes processed" ++ " metric rather than the clock.";
  "";
  "---";
  "";
  "## 2. Data Modelling: Denormalisation and Data Types";
  "";
  "In traditional SQL (Postgres, MySQL), normalisation is the standard approach. In";
  "BigQuery, **denormalisation** is often the path to efficiency.";
  "";
  "### Denormalisation vs. Joins";
  "";
  "Joins in BigQuery require " ++ q "shuffling" ++ "—moving data between slots to find matching";
  "keys. This is compute-intensive and expensive. By pre-joining data into flat or";
  "nested structures, you reduce the need for shuffles.";
  "";
  "### Choosing Appropriate Data Types";
  "";
  "Every byte counts in a columnar store. Using `INT64` (8 bytes) instead of a";
  "`STRING` representation can save significant costs over billions of rows.";
  "";
  "* **STRING:** 2 bytes + UTF-8 length.";
  "* **NUMERIC:** 16 bytes (use only for high-precision financial data).";
  "* **DATE/TIMESTAMP:** 8 bytes.";
  "";
  "```sql";
  "-- Efficient Table Definition";
  "CREATE TABLE analytics.events (";
  "  user_id INT64,             -- 8 bytes";
  "  event_type STRING,         -- 2 bytes + length";
  "  event_date DATE,           -- 8 bytes";
  "  metadata JSON              -- Use sparsely for performance";
  ")";
  "CLUSTER BY user_id;";
  "```";
  "";
  "### Primary and Foreign Keys";
  "";
  "In traditional databases, primary keys are essential for performance (indexing)";
  "and data integrity. BigQuery's approach is different:";
  "";
  "* **Optional and Non-Enforced:** Primary and foreign keys are optional. If";
  "  defined, they are **not enforced** by BigQuery during data ingestion. You are";
  "  responsible for ensuring data uniqueness and referential integrity.";
  "* **Performance Optimisation:** While not enforced, defining these keys can";
  "  improve query performance. The query optimiser uses the constraint information";
  "  to apply better join strategies (such as eliminating unnecessary shuffles) and";
  "  improving join ordering.";
  "* **Cost of Enforcement:** Because BigQuery is a distributed system, enforcing";
  "  uniqueness at scale would require significant cross-slot coordination, which";
  "  would slow down data loading and increase costs.";
  "";
  "---";
  "";
  "## 3. Storage Optimisation: Partitioning and Clustering";
  "";
  "These are effective methods for reducing query costs.";
  "";
  "### Partitioning";
  "";
  "Partitioning divides your table into segments (usually by date). When you filter";
  "by the partition column, BigQuery " ++ q "prunes" ++ " the partitions, ignoring the data it";
  "doesn't need.";
  "";
  "```sql";
  "-- Partitioning by day with a mandatory filter";
  "CREATE TABLE analytics.logs (";
  "  timestamp TIMESTAMP,";
  "  message STRING";
  ")";
  "PARTITION BY TIMESTAMP_TRUNC(timestamp, DAY)";
  "OPTIONS (";
  "  require_partition_filter = true";
  ");";
  "```";
  "";
  "### Clustering";
  "";
  "Clustering sorts the data within partitions based on up to four columns. This is";
  "particularly effective for columns with high cardinality (like `user_id` or";
  "`country_code`).";
  "";
  "**Note:** The order of clustering columns matters.";
  "column, then the second, and so on. Your `WHERE` clauses should follow this";
  "order for maximum effect.";
  "";
  "---";
  "";
  "## 4. Advanced Data Structures: Arrays and Structs";
  "";
  "BigQuery allows you to store related data in a single row using `ARRAY` and";
  "`STRUCT`. This significantly reduces row counts and avoids expensive joins.";
  "";
  "### The " ++ q "Global IoT Sensor" ++ " Case Study";
  "";
  "Analysis of a high-frequency IoT sensor dataset illustrates this. By";
  "restructuring a flat table of **1.2 billion sensor readings (450 GB)** into a";
  "nested structure where readings were grouped into hourly arrays per device, the";
  "dataset was reduced to **60 million rows (280 GB)**—a 95% reduction in row count";
  "and a 38% reduction in storage size.";
  "";
  "#### Example: Normalised vs. Nested";
  "";
  "```sql";
  "-- Normalised (Flat): Requires a JOIN and shuffles data for every reading.";
  "SELECT ";
  "  d.device_name, ";
  "  s.reading ";
  "FROM `project.dataset.sensors` s";
  "JOIN `project.dataset.devices` d ON s.device_id = d.device_id;";
  "";
  "-- Nested (BigQuery): Data is co-located. No JOIN or shuffle required.";
  "SELECT ";
  "  device_name, ";
  "  r.reading ";
  "FROM `project.dataset.device_readings`,";
  "UNNEST(readings) AS r;";
  "```";
  "";
  "### Querying Nested Data";
  "";
  "Use the `UNNEST` keyword to flatten arrays back into a relational format for";
  "analysis.";
  "";
  "```sql";
  "-- Querying a nested user activity table";
  "SELECT";
  "  user_id,";
  "  session.page_path,";
  "  session.duration";
  "FROM `project.dataset.user_activity`,";
  "UNNEST(sessions) AS session";
  "WHERE session.date = '2024-01-01';";
  "```";
  "";
  "---";
  "";
  "## 5. Modern Search Capabilities: Search Indexes";
  "";
  "For logs or text-heavy data, standard `LIKE '%term%'` filters are slow and";
  "expensive. BigQuery's **Search Indexes** allow for efficient pattern";
  "matching.";
  "";
  "```sql";
  "-- Creating a Search Index";
  "CREATE SEARCH INDEX idx_logs";
  "ON analytics.server_logs(ALL COLUMNS);";
  "";
  "-- Using the SEARCH function";
  "SELECT *";
  "FROM analytics.server_logs";
  "WHERE SEARCH(server_logs, 'error " ++ q "critical failure" ++ "');";
  "```";
  "";
  "---";
  "";
  "## 6. Advanced SQL Techniques: Window Functions";
  "";
  "Window functions allow you to perform calculations across a set of rows related";
  "to the current row, without collapsing them into a single output row.";
  "";
  "### Key Window Functions";
  "";
  "* **Ranking:** `ROW_NUMBER()`, `RANK()`, `DENSE_RANK()`.";
  "* **Analytical:** `LAG()`, `LEAD()` (comparing to previous/next rows).";
  "* **Aggregation:** `SUM() OVER()`, `AVG() OVER()`.";
  "";
  "```sql";
  "-- Calculating a 7-day moving average of revenue";
  "SELECT";
  "  date,";
  "  revenue,";
  "  AVG(revenue) OVER (";
  "    ORDER BY date";
  "    ROWS BETWEEN 6 PRECEDING AND CURRENT ROW";
  "  ) AS moving_avg_7d";
  "FROM sales_table;";
  "```";
  "";
  "### Optimisation: `EXISTS` and `IN` for Semi-Joins";
  "";
  "In BigQuery, using `EXISTS` or `IN` with a subquery is an optimisation that";
  "the engine translates into a **Semi-Join** or **Anti-Join**.";
  "";
  "* **Efficiency:** A standard `JOIN` can produce duplicate rows if the join key is";
  "  not unique, requiring a `DISTINCT` operation. `EXISTS` and `IN` stop processing";
  "  a match as soon as the first one is found, reducing **Slot Time** and";
  "  **Bytes Shuffled**.";
  "* **Performance:** Use `EXISTS` for correlated subqueries and `IN` for";
  "  uncorrelated subqueries or static lists.";
  "* **Anti-Joins:** `NOT EXISTS` is more reliable for anti-joins because it handles";
  "  `NULL` values differently than `NOT IN`. If a `NOT IN` subquery returns a";
  "  `NULL`, the query will return zero results.";
  "";
  "#### Example: Semi-Join vs. Inner Join";
  "";
  "```sql";
  "-- Standard Join: Might produce duplicate rows if a user has multiple orders,";
  "-- requiring an expensive DISTINCT.";
  "SELECT DISTINCT u.user_id, u.name";
  "FROM `project.dataset.users` u";
  "JOIN `project.dataset.orders` o ON u.user_id = o.user_id;";
  "";
  "-- Optimised with EXISTS (Semi-Join): Stops as soon as the first order is found.";
  "-- More efficient for large datasets.";
  "SELECT u.user_id, u.name";
  "FROM `project.dataset.users` u";
  "WHERE EXISTS (";
  "  SELECT 1 FROM `project.dataset.orders` o WHERE o.user_id = u.user_id";
  ");";
  "";
  "-- Optimised with IN (Uncorrelated): Best for static lists or independent subqueries.";
  "SELECT user_id, name";
  "FROM `project.dataset.users`";
  "WHERE user_id IN (SELECT user_id FROM `project.dataset.orders`);";
  "```";
  "";
  "---";
  "";
  "## 7. Practical Performance Tuning: The Developer's Workflow";
  "";
  "1. **Filter Early:** Apply `WHERE` clauses as close to the source as possible.";
  "2. **Select Only Needed Columns:** Avoid `SELECT *`. Every extra column adds to";
  "   the bytes scanned.";
  "3. **Aggregate Late:** Join small tables first, then aggregate.";
  "4. **Use CTEs for Clarity:** Common Table Expressions (CTEs) make your code more";
  "   readable, but remember that BigQuery does not " ++ q "materialise" ++ " them—using the";
  "   same CTE multiple times will result in multiple scans. Use temporary tables";
  "   for heavy intermediate results.";
  "";
  "---";
  "";
  "## 8. Analysing the Execution Graph: Identifying Bottlenecks";
  "";
  "The execution graph provides a detailed view of how your query is processed. It";
  "shows how the **Dremel** engine breaks your SQL into multiple stages.";
  "";
  "### Comparison of Execution Metrics";
  "";
  "* **Slot Time:** The total compute resources consumed. High slot time relative to";
  "  execution time indicates high parallelism. Extremely high slot time with slow";
  "  performance can indicate inefficient operations like cross-joins.";
  "* **Wait Time (ms):** The time a stage waited for an available slot. High wait";
  "  times indicate that the project has reached its slot limit.";
  "* **Bytes Shuffled:** The amount of data moved between stages. Large shuffle";
  "  volumes are a bottleneck and can often be reduced through clustering or better";
  "  data modelling.";
  "* **Compute Time (Avg vs Max):** A large difference between Average and Maximum";
  "  compute time in a stage indicates **Data Skew**, where a small number of slots";
  "  process more data than others.";
  "";
  "### Join Patterns in the Graph";
  "";
  "BigQuery uses two strategies for joins:";
  "";
  "1. **Broadcast Join:** For joins with small tables (usually < 10MB), BigQuery";
  "   sends the small table to every slot processing the large table. This avoids";
  "   a shuffle.";
  "2. **Hash Join:** For joins between large tables, BigQuery shuffles both tables";
  "   based on the join key.";
  "";
  "### Common Bottlenecks and Solutions";
  "";
  "<!-- markdownlint-disable MD013 -->";
  "| Symptom | Probable Cause | Solution |";
  "| :--- | :--- | :--- |";
  "| **High Slot Time** | Complex `REGEXP`, UDFs, or large cross-joins. | Simplify logic; use `SEARCH` for text; ensure join keys are efficient. |";
  "| **High Wait Time** | Slot contention or hitting project limits. | Switch to Capacity pricing (Reservations) or optimise query to use fewer slots. |";
  "| **High Bytes Shuffled** | Joining large tables on non-clustered columns. | Cluster both tables on the join keys; use nested/repeated fields to avoid joins. |";
  "| **Data Skew** | Join keys are unevenly distributed (e.g., many NULLs). | Filter out NULLs before joining; distribute frequently occurring keys using a " ++ q "salting" ++ " technique. |";
  "| **Exploding Joins** | **Low Cardinality** on join keys (Many-to-Many). | Check join logic; ensure you aren't creating a Cartesian product inadvertently. |";
  "<!-- markdownlint-enable MD013 -->";
  "";
  "---";
  "";
  "## Final Thoughts";
  "";
  "Efficiency in BigQuery involves understanding the separation of storage and";
  "compute. By using denormalisation, partitioning, and clustering, you can";
  "reduce the amount of data processed and the resources consumed.";
  "";
  "Always keep an eye on the execution graph. It tells you more about your query's";
  "health than the execution timer ever will.";
  "";
  "### Citations and Further Reading";
  "";
  "* [Google Cloud: BigQuery Explained - Storage Overview](https://cloud.google.com/blog/products/data-analytics/bigquery-explained-storage-overview)";
  "* [Official BigQuery Pricing Guide](https://cloud.google.com/bigquery/pricing)";
  "* [A Guide to Using Window Functions](https://medium.com/data-science/a-guide-to-using-window-functions-4b2768f589d9)";
  "* [Mastering Arrays in BigQuery (2024)](https://medium.com/@thomas.ellyatt/mastering-arrays-in-bigquery-2024-e62612b15c30)";
  "* [A Guide to Search Indexes in BigQuery](https://medium.com/@thomas.ellyatt/a-guide-to-search-indexes-in-bigquery-3d2b586e10fb)";
  "* [BigQuery Efficiency: How I Reduced Table Size by 35%](https://towardsdatascience.com/bigquery-efficiency-how-i-reduced-my-table-size-by-35-5-and-rows-by-93-1-dc8b9b7276ff/)";
  "* [Clustering for Improved Performance (2024)](https://medium.com/@thomas.ellyatt/clustering-for-improved-performance-in-bigquery-2024-55c9285828dd)";
  "* [Why Partitioning Tables is Essential (2024)](https://medium.com/@thomas.ellyatt/why-partitioning-tables-is-essential-in-bigquery-2024-6e771c9fc288)";
  "* [Ultimate Guide to Saving Time and Money with BigQuery](https://medium.com/@thomas.ellyatt/ultimate-guide-to-saving-time-and-money-with-bigquery-f2cddc1af1ad)";
  "* [Burn Data Rather Than Money with BigQuery: The Definitive Guide](https://towardsdatascience.com/burn-data-rather-than-money-with-bigquery-the-definitive-guide-1b50a9fdf096/)";
  "* [Query Optimisation Best Practices for Data Analysts](https://medium.com/@sheerwolff/query-optimization-in-bigquery-best-practices-for-data-analysts-9aba6cf68fea)";
  "* [Why Your 5-Second BigQuery Query Isn’t Cheap](https://luminousmen.substack.com/p/why-your-5-second-bigquery-query)"
].

End BigQuery.

(** ** The scope of a configuration module *)

Module Scope.
Import Js.

(** The names an expression calls, in source order. *)
Fixpoint callees (e : expr) : list string :=
  match e with
  | ECall f args => f :: flat_map callees args
  | EArr items => flat_map callees items
  | EObj fields => flat_map (fun kv => callees (snd kv)) fields
  | EStr _ | ERequire _ | EEnv _ => []
  end.

(** The packages an expression loads with [require]. *)
Fixpoint required (e : expr) : list string :=
  match e with
  | ERequire spec => [spec]
  | ECall _ args => flat_map required args
  | EArr items => flat_map required items
  | EObj fields => flat_map (fun kv => required (snd kv)) fields
  | EStr _ | EEnv _ => []
  end.

(** What a module's default export calls and requires. *)
Definition called (m : module) : list string :=
  match default_export m with Some e => callees e | None => [] end.

Definition loaded (m : module) : list string :=
  match default_export m with Some e => required e | None => [] end.

(** Every called name is bound by an import. *)
Definition well_scoped (m : module) : bool :=
  forallb (fun f => existsb (String.eqb f) (keys (imports m))) (called m).

End Scope.

(** ** The files a glob selects *)

Module Selection.
Import Text.

(** [under root types file]: [file] lies in [root], at any depth below
    it, no directory on the way and not the file itself is hidden, and its
    name ends with a dot and one of [types]. *)
Definition under (root : string) (types : list string) (file : string) : Prop :=
  exists (dirs : list (list ascii)) (base : list ascii) (ext : string),
    Glob.segments file =
      (chars root :: dirs ++ [base ++ "."%char :: chars ext])%list /\
    Forall (fun d => Glob.hidden d = false) dirs /\
    Glob.hidden (base ++ "."%char :: chars ext)%list = false /\
    In ext types.

End Selection.

(** ** The outline of a document: headings, rules, links, code *)

Module Outline.
Import Text.

(** The lines of a document, each with its number and kind; the first
    line has number [n]. *)
Definition numbered (n : nat) (lines : list string)
  : list (nat * (Markdown.kind * string)) :=
  combine (seq n (List.length lines)) (combine (Markdown.kinds lines) lines).

(** The lines outside the code blocks. *)
Definition prose (n : nat) (lines : list string) : list (nat * string) :=
  flat_map (fun x => match fst (snd x) with
                     | Markdown.Prose => [(fst x, snd (snd x))]
                     | _ => []
                     end)
           (numbered n lines).

Definition is_hash (c : ascii) : bool := Ascii.eqb c "#".

(** An ATX heading: at most three spaces, one to six [#], then a space or
    the end of the line.  The result is the level and the title. *)
Definition heading (line : string) : option (nat * string) :=
  let l := chars line in
  let marks := drop_while Markdown.is_blank l in
  let level := List.length (take_while is_hash marks) in
  let rest := drop_while is_hash marks in
  if Nat.leb (Markdown.indent l) 3 && Nat.leb 1 level && Nat.leb level 6 &&
     match rest with
     | [] => true
     | c :: _ => is_space c
     end
  then Some (level, text (trim rest)) else None.

(** The headings of a document: line, level, title. *)
Definition headings (n : nat) (lines : list string)
  : list (nat * (nat * string)) :=
  flat_map (fun x => match heading (snd x) with
                     | Some h => [(fst x, h)]
                     | None => []
                     end)
           (prose n lines).

Definition levels (n : nat) (lines : list string) : list nat :=
  map (fun x => fst (snd x)) (headings n lines).

(** No heading is more than one level below the heading before it;
    [above] is the level the first heading is measured against. *)
Fixpoint nested (above : nat) (ls : list nat) : bool :=
  match ls with
  | [] => true
  | l :: rest => Nat.leb l (S above) && nested l rest
  end.

(** The number a title starts with, when it starts with digits and a dot. *)
Definition section_number (title : string) : option nat :=
  let l := chars title in
  match drop_while is_digit l with
  | c :: _ => if Ascii.eqb c "." then number (take_while is_digit l) else None
  | [] => None
  end.

(** The numbers of the numbered headings of a level, in order. *)
Definition section_numbers (level n : nat) (lines : list string) : list nat :=
  flat_map (fun x => if Nat.eqb (fst (snd x)) level
                     then match section_number (snd (snd x)) with
                          | Some k => [k]
                          | None => []
                          end
                     else [])
           (headings n lines).

Definition is_blank_line (line : string) : bool := forallb is_space (chars line).

(** A thematic break: at most three spaces of indentation, then three or
    more of the same [-], [_] or [*], with nothing but spaces between. *)
Definition is_break (line : string) : bool :=
  let l := chars line in
  let marks := filter (fun c => negb (is_space c)) l in
  match marks with
  | c :: _ =>
      Nat.leb (Markdown.indent l) 3 && Nat.leb 3 (List.length marks) &&
      one_of "-_*" c && forallb (Ascii.eqb c) marks
  | [] => false
  end.

(** A line that underlines a setext heading when it follows a paragraph:
    only [=], or only [-]. *)
Definition is_underline (line : string) : bool :=
  match trim (chars line) with
  | c :: l => one_of "=-" c && forallb (Ascii.eqb c) l
  | [] => false
  end.

(** The thematic breaks, each with its line and whether the lines before
    and after it are blank; [prev] is the line before the first one. *)
Fixpoint breaks (n : nat) (prev : string) (ls : list (Markdown.kind * string))
  : list (nat * bool) :=
  match ls with
  | [] => []
  | (k, l) :: rest =>
      let isolated :=
        is_blank_line prev &&
        match rest with
        | (_, next) :: _ => is_blank_line next
        | [] => true
        end in
      match k with
      | Markdown.Prose =>
          if is_break l then (n, isolated) :: breaks (S n) l rest
          else breaks (S n) l rest
      | _ => breaks (S n) l rest
      end
  end.

(** The lines that underline the paragraph line before them. *)
Fixpoint underlines (n : nat) (prev : option string)
    (ls : list (Markdown.kind * string)) : list nat :=
  match ls with
  | [] => []
  | (Markdown.Prose, l) :: rest =>
      match prev with
      | Some p =>
          if is_underline l && negb (is_blank_line p)
          then n :: underlines (S n) (Some l) rest
          else underlines (S n) (Some l) rest
      | None => underlines (S n) (Some l) rest
      end
  | _ :: rest => underlines (S n) None rest
  end.

(** The inline links of a line: label and target of every
    [[label](target)]. *)
Fixpoint links (l : list ascii) : list (string * string) :=
  match l with
  | [] => []
  | c :: l' =>
      (if Ascii.eqb c "["
       then match Url.cut "]" l' with
            | Some (label, d :: after) =>
                if Ascii.eqb d "("
                then match Url.cut ")" after with
                     | Some (target, _) => [(text label, text target)]
                     | None => []
                     end
                else []
            | _ => []
            end
       else []) ++ links l'
  end.

(** The links of a document: line, label, target. *)
Definition document_links (n : nat) (lines : list string)
  : list (nat * (string * string)) :=
  flat_map (fun x => map (pair (fst x)) (links (chars (snd x)))) (prose n lines).

(** Inline code spans.  A span opens with a run of backticks and closes
    with the next run of the same length; outside a span, the character
    after a backslash is a plain character. *)

(** What a finished run of [run] backticks does to the span that is open:
    it opens one, closes the one of its length, or lies inside it. *)
Definition end_run (opened : option nat) (run : nat) : option nat :=
  match run with
  | 0 => opened
  | S _ =>
      match opened with
      | None => Some run
      | Some n => if Nat.eqb run n then None else Some n
      end
  end.

(** The span still open after [l], as the length of the run that opened
    it; [opened] is the span open before [l] and [run] the number of
    backticks read just before it. *)
Fixpoint open_span (opened : option nat) (run : nat) (l : list ascii)
  : option nat :=
  match l with
  | [] => end_run opened run
  | c :: l' =>
      if Markdown.is_tick c then open_span opened (S run) l'
      else
        let opened' := end_run opened run in
        if Ascii.eqb c Markdown.backslash
        then match opened', l' with
             | None, _ :: l'' => open_span None 0 l''
             | _, _ => open_span opened' 0 l'
             end
        else open_span opened' 0 l'
  end.

(** The span a line leaves open, if any. *)
Definition left_open (line : string) : option nat :=
  open_span None 0 (chars line).


(** Code blocks. *)
Record block : Type := {
  language : string;      (* the info string of the opening fence *)
  opened_at : nat;        (* the line of the opening fence *)
  code : list string      (* the lines between the fences *)
}.

Definition info_string (line : string) : string :=
  let l := chars line in
  match Markdown.fence_char l with
  | Some c => text (trim (Markdown.info c l))
  | None => ""
  end.

(** [cur] is the block being read, with its lines last first. *)
Fixpoint blocks (n : nat) (cur : option block)
    (ls : list (Markdown.kind * string)) : list block :=
  match ls with
  | [] => []
  | (Markdown.Open, l) :: rest =>
      blocks (S n)
             (Some {| language := info_string l; opened_at := n; code := [] |})
             rest
  | (Markdown.Code, l) :: rest =>
      blocks (S n)
             (option_map (fun b => {| language := language b;
                                      opened_at := opened_at b;
                                      code := l :: code b |}) cur)
             rest
  | (Markdown.Close, _) :: rest =>
      match cur with
      | Some b => {| language := language b; opened_at := opened_at b;
                     code := rev (code b) |} :: blocks (S n) None rest
      | None => blocks (S n) None rest
      end
  | (Markdown.Prose, _) :: rest => blocks (S n) cur rest
  end.

Definition document_blocks (n : nat) (lines : list string) : list block :=
  blocks n None (combine (Markdown.kinds lines) lines).

(** The depth of parentheses after [l], starting at depth [d]; [None] when
    a parenthesis closes that was never opened. *)
Fixpoint parens (d : nat) (l : list ascii) : option nat :=
  match l with
  | [] => Some d
  | c :: l' =>
      if Ascii.eqb c "(" then parens (S d) l'
      else if Ascii.eqb c ")"
           then match d with
                | 0 => None
                | S d' => parens d' l'
                end
           else parens d l'
  end.

Definition parens_balanced (b : block) : bool :=
  match parens 0 (concat (map chars (code b))) with
  | Some 0 => true
  | _ => false
  end.

(** The last line of the block that is not blank ends with a semicolon. *)
Definition terminated (b : block) : bool :=
  match rev (filter (fun l => negb (is_blank_line l)) (code b)) with
  | l :: _ =>
      match rev (trim (chars l)) with
      | c :: _ => Ascii.eqb c ";"
      | [] => false
      end
  | [] => false
  end.

End Outline.

(** ** Colours as channels, font names *)

Module Palette.
Import Text.

Record rgb : Type := { red : nat; green : nat; blue : nat }.

(** The value of a lowercase hexadecimal digit. *)
Definition hex_value (c : ascii) : nat :=
  if is_digit c then nat_of_ascii c - 48 else nat_of_ascii c - 87.

Definition channel (hi lo : ascii) : nat := 16 * hex_value hi + hex_value lo.

Definition rgb_of (s : string) : option rgb :=
  if Color.is_hex_color s
  then match chars s with
       | [_; r1; r0; g1; g0; b1; b0] =>
           Some {| red := channel r1 r0; green := channel g1 g0;
                   blue := channel b1 b0 |}
       | _ => None
       end
  else None.

(** The colour of a token of a theme. *)
Definition token (r : Tailwind.theme_record) (name : string) : option rgb :=
  Js.bind (Js.lookup name (Tailwind.colorTokens r)) rgb_of.

(** [darker a b]: every channel of [a] is below the same channel of [b]. *)
Definition darker (a b : rgb) : Prop :=
  red a < red b /\ green a < green b /\ blue a < blue b.

End Palette.

Module Fonts.
Import Text.

(** A family name written between double quotes. *)
Definition quoted (name : string) : bool :=
  match chars name with
  | c :: l =>
      match rev l with
      | d :: _ => Ascii.eqb c dq_char && Ascii.eqb d dq_char
      | [] => false
      end
  | [] => false
  end.

Definition has_space (name : string) : bool := existsb is_space (chars name).

Definition generic (name : string) : bool :=
  existsb (String.eqb name) Tailwind.generic_families.

End Fonts.

(** * Properties *)

(** ** Lists of strings *)

Lemma distinct_NoDup (l : list string) : Text.distinct l = true -> NoDup l.
Proof.
  induction l as [| x l IH]; simpl; intro H.
  - constructor.
  - apply andb_prop in H as [Hx Hl].
    constructor; [| exact (IH Hl)].
    intro Hin.
    apply negb_true_iff in Hx.
    assert (existsb (String.eqb x) l = true) as Hex.
    { apply existsb_exists. exists x. split; [exact Hin | apply String.eqb_refl]. }
    congruence.
Qed.

Lemma NoDup_distinct (l : list string) : NoDup l -> Text.distinct l = true.
Proof.
  induction 1 as [| x l Hx _ IH]; simpl; [reflexivity |].
  rewrite IH, andb_true_r.
  apply negb_true_iff.
  destruct (existsb (String.eqb x) l) eqn:E; [| reflexivity].
  apply existsb_exists in E as [y [Hy Heq]].
  apply String.eqb_eq in Heq. subst y. contradiction.
Qed.

Lemma text_chars (s : string) : Text.text (Text.chars s) = s.
Proof. apply string_of_list_ascii_of_string. Qed.

(** ** Colours *)

Lemma lower_hex_digit (c : ascii) :
  Text.is_lower_hex c = true -> In c (Text.chars "0123456789abcdef").
Proof.
  destruct c as [[] [] [] [] [] [] [] []]; vm_compute; intro H;
    try discriminate; tauto.
Qed.

Lemma is_hex_color_sound (s : string) :
  Color.is_hex_color s = true -> Color.hex_color s.
Proof.
  unfold Color.is_hex_color, Color.hex_color.
  destruct (Text.chars s) as [| c ds] eqn:E; [discriminate |].
  intro H.
  apply andb_prop in H as [H Hhex]. apply andb_prop in H as [Hc Hlen].
  apply Ascii.eqb_eq in Hc. apply Nat.eqb_eq in Hlen. subst c.
  exists ds. split; [| split].
  - rewrite <- (text_chars s), E. reflexivity.
  - exact Hlen.
  - apply Forall_forall. intros c Hin. apply lower_hex_digit.
    rewrite forallb_forall in Hhex. apply Hhex. exact Hin.
Qed.

Lemma text_length (l : list ascii) : String.length (Text.text l) = List.length l.
Proof. induction l; simpl; congruence. Qed.

Lemma hex_color_length (s : string) : Color.hex_color s -> String.length s = 7.
Proof.
  intros [ds [-> [Hlen _]]]. simpl. rewrite text_length, Hlen. reflexivity.
Qed.

(** ** Dates *)

Lemma parse_valid (s : string) (d : Date.date) :
  Date.parse s = Some d -> Date.valid d = true.
Proof.
  unfold Date.parse.
  destruct (Text.split_on "-" (Text.chars s)) as [| y [| m [| dd [| ? ?]]]];
    try discriminate.
  destruct (Text.number y), (Text.number m), (Text.number dd); try discriminate.
  match goal with |- (if ?b then _ else _) = _ -> _ => destruct b eqn:E end;
    [| discriminate].
  intro H. injection H as <-.
  apply andb_prop in E as [_ E]. exact E.
Qed.

Lemma valid_bounds (d : Date.date) :
  Date.valid d = true ->
  1 <= Date.month d <= 12 /\ 1 <= Date.day d <= 31.
Proof.
  unfold Date.valid. intro H.
  repeat (apply andb_prop in H as [H ?]).
  repeat match goal with
         | H : Nat.leb _ _ = true |- _ => apply Nat.leb_le in H
         end.
  assert (Date.days_in_month (Date.year d) (Date.month d) <= 31) as Hd.
  { unfold Date.days_in_month.
    destruct (Date.month d) as [| [| [| [| [| [| [| [| [| [| [| [| [| ?]]]]]]]]]]]]];
      try destruct (Date.leap _); lia. }
  lia.
Qed.

(** ** URL paths *)

Lemma path_prefix_starts_with_slash (s : string) :
  Url.valid_path_prefix s = true -> exists rest, s = String "/" rest.
Proof.
  unfold Url.valid_path_prefix. destruct s as [| c rest]; simpl; [discriminate |].
  intro H. repeat (apply andb_prop in H as [H ?]).
  apply Ascii.eqb_eq in H. subst c. exists rest. reflexivity.
Qed.

(** ** Globs *)

Lemma star_matches_every_name (s : list ascii) :
  Glob.match_tokens [Glob.Star] s = true.
Proof.
  induction s as [| c s IH]; simpl; [reflexivity |].
  simpl in IH. rewrite IH. destruct s; reflexivity.
Qed.

Lemma globstar_matches_no_directory (ps : list Glob.segment) (path : list (list ascii)) :
  Glob.match_path ps path = true ->
  Glob.match_path (Glob.GlobStar :: ps) path = true.
Proof.
  intro H. destruct path; simpl; rewrite H; reflexivity.
Qed.

(** ** Fences *)

Lemma scan_cons (st : Markdown.state) (l : string) (rest : list string) :
  Markdown.scan st (l :: rest) =
  (snd (Markdown.step st l) :: fst (Markdown.scan (fst (Markdown.step st l)) rest),
   snd (Markdown.scan (fst (Markdown.step st l)) rest)).
Proof.
  simpl. destruct (Markdown.step st l) as [st' k]. simpl.
  destruct (Markdown.scan st' rest). reflexivity.
Qed.

(** Openings and closings alternate: along any scan, the openings plus the
    fences open at the start are the closings plus the fences open at the
    end. *)
Lemma scan_depth (lines : list string) :
  forall st : Markdown.state,
    List.length (filter Markdown.is_open (fst (Markdown.scan st lines))) +
    Markdown.depth st =
    List.length (filter Markdown.is_close (fst (Markdown.scan st lines))) +
    Markdown.depth (snd (Markdown.scan st lines)).
Proof.
  induction lines as [| l rest IH]; intro st; [reflexivity |].
  rewrite scan_cons. cbn [fst snd].
  specialize (IH (fst (Markdown.step st l))).
  destruct st as [| w]; unfold Markdown.step in *.
  - destruct (Markdown.opens l); cbn [fst snd filter Markdown.is_open
      Markdown.is_close Markdown.depth List.length] in *; lia.
  - destruct (Markdown.closes w l); cbn [fst snd filter Markdown.is_open
      Markdown.is_close Markdown.depth List.length] in *; lia.
Qed.

Lemma delimiters_split (ks : list Markdown.kind) :
  List.length (filter Markdown.is_delimiter ks) =
  List.length (filter Markdown.is_open ks) +
  List.length (filter Markdown.is_close ks).
Proof.
  induction ks as [| [] ks IH]; simpl; lia.
Qed.

(** When the fences are balanced, there are as many closings as openings
    and the number of delimiter lines is even. *)
Lemma balanced_pairs (lines : list string) :
  Markdown.fences_balanced lines = true ->
  Markdown.count Markdown.is_close lines = Markdown.count Markdown.is_open lines /\
  Markdown.count Markdown.is_delimiter lines =
  2 * Markdown.count Markdown.is_open lines.
Proof.
  unfold Markdown.fences_balanced, Markdown.count, Markdown.kinds, Markdown.final.
  intro H. pose proof (scan_depth lines Markdown.Outside) as D.
  rewrite delimiters_split.
  destruct (snd (Markdown.scan Markdown.Outside lines)); [| discriminate].
  simpl in D. lia.
Qed.

(** ** Lists *)

Lemma last_nth_error {A : Type} (l : list A) (d : A) :
  l <> [] -> nth_error l (List.length l - 1) = Some (last l d).
Proof.
  induction l as [| x l IH]; intro H; [contradiction |].
  destruct l as [| y l]; [reflexivity |].
  change (last (x :: y :: l) d) with (last (y :: l) d).
  rewrite <- IH by discriminate.
  simpl. rewrite Nat.sub_0_r. reflexivity.
Qed.

(** In a list that ends with [g], every element other than [g] has [g]
    somewhere after it. *)
Lemma last_is_after {A : Type} (l : list A) (g : A) :
  l <> [] -> last l g = g ->
  forall (i : nat) (x : A),
    nth_error l i = Some x -> x <> g ->
    exists j, i < j /\ nth_error l j = Some g.
Proof.
  intros Hne Hlast i x Hi Hx.
  pose proof (last_nth_error l g Hne) as Hn. rewrite Hlast in Hn.
  exists (List.length l - 1). split; [| exact Hn].
  assert (i < List.length l) as Hlt by (apply nth_error_Some; congruence).
  assert (i <> List.length l - 1) as Hneq by (intros ->; congruence).
  lia.
Qed.

(** Turning the value of a computation into an equation on a record. *)
Ltac known t :=
  let E := fresh "E" in
  destruct t eqn:E; vm_compute in E;
  [ injection E as E; subst | discriminate E ].

(** ** What the checks refuse *)

Example uppercase_or_short_colour_refused :
  Color.is_hex_color "#1A1B26" = false /\ Color.is_hex_color "#1a1b2" = false.
Proof. split; reflexivity. Qed.

Example day_outside_the_month_refused :
  Date.parse "2026-02-29" = None /\ Date.parse "2026-13-01" = None.
Proof. split; reflexivity. Qed.

Example relative_url_refused :
  Url.valid_absolute_url "lab176344.github.io" = false /\
  Url.valid_path_prefix "blog" = false.
Proof. split; reflexivity. Qed.

Example configuration_files_not_scanned :
  Glob.matches "./src/**/*.{astro,html,js,jsx,md,mdx,svelte,ts,tsx,vue}"
               Repository.astro_config = false /\
  Glob.matches "./src/**/*.{astro,html,js,jsx,md,mdx,svelte,ts,tsx,vue}"
               Repository.tailwind_config = false.
Proof. split; reflexivity. Qed.

Example unclosed_fence_refused :
  Markdown.fences_balanced ["```sql"; "SELECT 1;"] = false.
Proof. reflexivity. Qed.

Example ragged_table_refused :
  Markdown.table_ok ["| a | b |"; "| :--- | :--- |"; "| 1 | 2 | 3 |"] = false /\
  Markdown.table_ok ["| a | b |"; "| :--- |"] = false.
Proof. split; reflexivity. Qed.

(** ** The content document *)

(** C1. The article's front-matter holds the four required fields, each
    with its type: [title] and [description] are strings, [pubDate] parses
    as a day of the calendar (13 February 2026), and [tags] is a sequence
    of pairwise distinct strings of positive length. *)
Theorem front_matter_well_typed :
  exists doc : FrontMatter.document,
    FrontMatter.read BigQuery.lines = Some doc /\
    option_map Js.keys (FrontMatter.fields BigQuery.lines) =
      Some ["title"; "description"; "pubDate"; "tags"] /\
    FrontMatter.title doc =
      "A Guide to BigQuery Optimisation: Performance, Cost, and Architecture" /\
    FrontMatter.description doc =
      "An overview of BigQuery architecture, storage strategies, and query optimisation techniques based on real-world case studies." /\
    Date.parse "2026-02-13" = Some (FrontMatter.publishDate doc) /\
    FrontMatter.publishDate doc =
      {| Date.year := 2026; Date.month := 2; Date.day := 13 |} /\
    Date.valid (FrontMatter.publishDate doc) = true /\
    FrontMatter.tags doc =
      ["big-query"; "gcp"; "data-engineering"; "sql-optimisation"] /\
    NoDup (FrontMatter.tags doc) /\
    Forall (fun t => 0 < String.length t) (FrontMatter.tags doc).
Proof.
  known (FrontMatter.read BigQuery.lines).
  eexists. split; [reflexivity |]. cbn [FrontMatter.title
    FrontMatter.description FrontMatter.publishDate FrontMatter.tags].
  repeat split; try (vm_compute; reflexivity).
  - apply distinct_NoDup. reflexivity.
  - apply Forall_forall. intros t Hin. simpl in Hin.
    repeat destruct Hin as [<- | Hin]; try contradiction; simpl; lia.
Qed.

(** C4. The article's body is well-formed Markdown: its fourteen fence
    lines pair up into seven code blocks, each opened and closed, and its
    one table has a header, a delimiter row and five body rows of three
    cells each. *)
Theorem article_body_well_formed :
  let body := FrontMatter.body BigQuery.lines in
  Markdown.fences_balanced body = true /\
  Markdown.blocks (FrontMatter.body_start BigQuery.lines) None
                  (Markdown.kinds body) =
    [(62, 71); (101, 111); (140, 154); (161, 170); (180, 189); (204, 214);
     (233, 252)] /\
  Markdown.count Markdown.is_open body = 7 /\
  Markdown.count Markdown.is_close body = 7 /\
  Markdown.count Markdown.is_delimiter body = 14 /\
  Nat.Even (Markdown.count Markdown.is_delimiter body) /\
  (exists t : list string,
      Markdown.tables body = [t] /\
      Markdown.columns t = Some 3 /\
      List.length t = 7 /\
      Forall (fun row => List.length (Markdown.cells row) = 3) t) /\
  Forall (fun t => Markdown.table_ok t = true) (Markdown.tables body) /\
  Markdown.well_formed body = true.
Proof.
  cbv zeta.
  repeat match goal with |- _ /\ _ => split end;
    try (vm_compute; reflexivity).
  - exists 7. vm_compute. reflexivity.
  - destruct (Markdown.tables (FrontMatter.body BigQuery.lines))
      as [| t [| ? ?]] eqn:E; vm_compute in E; try discriminate E.
    injection E as E. subst t.
    eexists. split; [reflexivity |].
    split; [vm_compute; reflexivity |].
    split; [reflexivity |].
    apply Forall_forall. intros row Hin.
    apply Nat.eqb_eq. revert row Hin. apply forallb_forall.
    vm_compute. reflexivity.
  - apply Forall_forall. apply forallb_forall. vm_compute. reflexivity.
Qed.

(** ** The site configuration *)

(** C2. In every build the site configuration's [site] is a syntactically
    valid absolute URL (scheme [https], host [lab176344.github.io], no
    port, empty path) and its [base] is a valid URL path prefix. *)
Theorem site_url_and_base_valid :
  forall h : Js.host,
  exists r : Astro.site_record,
    Astro.site h = Some r /\
    Astro.siteURL r = "https://lab176344.github.io" /\
    Astro.basePath r = "/" /\
    Url.parse (Astro.siteURL r) =
      Some {| Url.scheme := "https"; Url.host := "lab176344.github.io";
              Url.port := None; Url.path := "" |} /\
    Url.valid_absolute_url (Astro.siteURL r) = true /\
    Url.valid_path_prefix (Astro.basePath r) = true.
Proof.
  intro h. known (Astro.site h).
  eexists. split; [reflexivity |].
  repeat split; vm_compute; reflexivity.
Qed.

(** C6. The object given to [defineConfig] has exactly the three fields
    [site], [base] and [integrations], and the only integration is the
    one obtained by calling the default export of [@astrojs/tailwind]. *)
Theorem site_config_declares_three :
  forall h : Js.host,
  exists (fields : list (string * Js.value)) (r : Astro.site_record),
    Astro.site_config h = Some (Js.VObj fields) /\
    Js.keys fields = ["site"; "base"; "integrations"] /\
    List.length fields = 3 /\
    Astro.site h = Some r /\
    Astro.enabledIntegrations r = [Astro.tailwind_integration].
Proof.
  intro h.
  destruct (Astro.site_config h) as [[| | fields | | |] |] eqn:E;
    vm_compute in E; try discriminate E.
  injection E as E. subst fields.
  known (Astro.site h).
  do 2 eexists. split; [reflexivity |].
  repeat split.
Qed.

(** ** The style configuration *)

(** C3. The content list holds one glob pattern; it matches a file of the
    repository whose extension is one the pattern names, namely the
    article [src/content/blog/big-query/index.md], a Markdown file. *)
Theorem content_globs_match_files :
  forall h : Js.host,
  exists r : Tailwind.theme_record,
    Tailwind.theme h = Some r /\
    Tailwind.contentGlobs r =
      ["./src/**/*.{astro,html,js,jsx,md,mdx,svelte,ts,tsx,vue}"] /\
    Forall (fun g => exists f : string,
                In f Repository.files /\
                Glob.matches g f = true /\
                Glob.of_intended_type g f = true)
           (Tailwind.contentGlobs r) /\
    Glob.matches "./src/**/*.{astro,html,js,jsx,md,mdx,svelte,ts,tsx,vue}"
                 Repository.big_query_article = true /\
    Glob.extension Repository.big_query_article = "md" /\
    In "md" (Glob.types_of
               "./src/**/*.{astro,html,js,jsx,md,mdx,svelte,ts,tsx,vue}").
Proof.
  intro h. known (Tailwind.theme h).
  eexists. split; [reflexivity |]. cbn [Tailwind.contentGlobs].
  split; [reflexivity |].
  split.
  - constructor; [| constructor].
    exists Repository.big_query_article.
    split; [right; right; left; reflexivity |].
    split; vm_compute; reflexivity.
  - split; [vm_compute; reflexivity |].
    split; [vm_compute; reflexivity |].
    vm_compute. tauto.
Qed.

(** C5. The configuration object has the fields [content], [theme] and
    [plugins] and nothing else; [theme] holds [extend], which holds
    [colors] (the [tui] palette) and [fontFamily].  Read as a record it is
    a sequence of glob patterns, a mapping from six colour token names to
    colour values, a mapping from one font family name to a sequence of
    font names, and a set of plugins that contains the typography
    plugin. *)
Theorem theme_record_shape :
  forall h : Js.host,
  exists v : Js.value,
    Tailwind.theme_config h = Some v /\
    Js.keys_at [] v = Some ["content"; "theme"; "plugins"] /\
    Js.keys_at ["theme"] v = Some ["extend"] /\
    Js.keys_at ["theme"; "extend"] v = Some ["colors"; "fontFamily"] /\
    Js.keys_at ["theme"; "extend"; "colors"] v = Some ["tui"] /\
    Tailwind.theme h =
      Some {| Tailwind.contentGlobs :=
                ["./src/**/*.{astro,html,js,jsx,md,mdx,svelte,ts,tsx,vue}"];
              Tailwind.colorTokens :=
                [("bg", "#1a1b26"); ("fg", "#a9b1d6"); ("accent", "#9ece6a");
                 ("dim", "#565f89"); ("border", "#414868");
                 ("selection", "#33467c")];
              Tailwind.fontTokens :=
                [("mono", [Text.q "JetBrains Mono"; Text.q "Fira Code";
                           "monospace"])];
              Tailwind.plugins := [Tailwind.typography_plugin] |} /\
    (forall r : Tailwind.theme_record,
        Tailwind.theme h = Some r ->
        NoDup (Js.keys (Tailwind.colorTokens r)) /\
        NoDup (Js.keys (Tailwind.fontTokens r)) /\
        NoDup (Tailwind.plugins r) /\
        In Tailwind.typography_plugin (Tailwind.plugins r)).
Proof.
  intro h. known (Tailwind.theme_config h).
  eexists. split; [reflexivity |].
  repeat match goal with |- _ /\ _ => split end;
    try (vm_compute; reflexivity).
  intros r Hr. vm_compute in Hr. injection Hr as Hr. subst r.
  cbn [Tailwind.colorTokens Tailwind.fontTokens Tailwind.plugins].
  split; [apply distinct_NoDup; reflexivity |].
  split; [apply distinct_NoDup; reflexivity |].
  split.
  - constructor; [simpl; tauto | constructor].
  - left. reflexivity.
Qed.

(** C9. Every colour of the [tui] palette is [#] followed by six lowercase
    hexadecimal digits, seven characters in all, and the six values of
    [bg], [fg], [accent], [dim], [border] and [selection] are pairwise
    distinct. *)
Theorem tui_palette_hex_and_distinct :
  forall h : Js.host,
  exists r : Tailwind.theme_record,
    Tailwind.theme h = Some r /\
    Js.keys (Tailwind.colorTokens r) =
      ["bg"; "fg"; "accent"; "dim"; "border"; "selection"] /\
    Forall (fun kv => Color.hex_color (snd kv) /\ String.length (snd kv) = 7)
           (Tailwind.colorTokens r) /\
    NoDup (map snd (Tailwind.colorTokens r)).
Proof.
  intro h. known (Tailwind.theme h).
  eexists. split; [reflexivity |]. cbn [Tailwind.colorTokens].
  split; [reflexivity |].
  split.
  - apply Forall_impl with
      (P := fun kv : string * string => Color.is_hex_color (snd kv) = true).
    + intros kv Hkv. apply is_hex_color_sound in Hkv.
      split; [exact Hkv | apply hex_color_length; exact Hkv].
    + apply Forall_forall. apply forallb_forall. reflexivity.
  - apply distinct_NoDup. reflexivity.
Qed.

(** C10. The [mono] font stack is not empty and ends with the generic CSS
    family [monospace], so every other family of the stack has
    [monospace] after it. *)
Theorem mono_stack_ends_with_generic :
  forall h : Js.host,
  exists (r : Tailwind.theme_record) (stack : list string),
    Tailwind.theme h = Some r /\
    Tailwind.mono_stack r = Some stack /\
    stack = [Text.q "JetBrains Mono"; Text.q "Fira Code"; "monospace"] /\
    stack <> [] /\
    last stack "" = "monospace" /\
    In "monospace" Tailwind.generic_families /\
    (forall (i : nat) (name : string),
        nth_error stack i = Some name -> name <> "monospace" ->
        exists j : nat, i < j /\ nth_error stack j = Some "monospace").
Proof.
  intro h. known (Tailwind.theme h).
  eexists. exists [Text.q "JetBrains Mono"; Text.q "Fira Code"; "monospace"].
  split; [reflexivity |].
  split; [vm_compute; reflexivity |].
  split; [reflexivity |].
  split; [discriminate |].
  split; [reflexivity |].
  split; [simpl; tauto |].
  apply last_is_after; [discriminate | reflexivity].
Qed.

(** * Further properties of the files *)

(** ** Glob matching, token by token *)

Lemma chars_text (l : list ascii) : Text.chars (Text.text l) = l.
Proof. apply list_ascii_of_string_of_list_ascii. Qed.

Lemma strip_prefix_app (p l r : list ascii) :
  Text.strip_prefix p l = Some r <-> l = (p ++ r)%list.
Proof.
  revert l. induction p as [| a p IH]; intro l; simpl.
  - split; [intros [= ->]; reflexivity | intros ->; reflexivity].
  - destruct l as [| b l]; [split; discriminate |].
    destruct (Ascii.eqb_spec a b) as [-> | Hab].
    + rewrite IH. split; [intros ->; reflexivity | intros [= ->]; reflexivity].
    + split; [discriminate | intros [= <- _]; contradiction].
Qed.

Lemma match_end (s : list ascii) : Glob.match_tokens [] s = true <-> s = [].
Proof. destruct s; simpl; split; congruence. Qed.

Lemma match_lit (c : ascii) (t : list Glob.token) (s : list ascii) :
  Glob.match_tokens (Glob.Lit c :: t) s = true <->
  exists s', s = c :: s' /\ Glob.match_tokens t s' = true.
Proof.
  destruct s as [| d s]; simpl.
  - split; [discriminate | intros [s' [H _]]; discriminate].
  - rewrite andb_true_iff, Ascii.eqb_eq. split.
    + intros [-> H]. exists s. split; [reflexivity | exact H].
    + intros [s' [[= -> ->] H]]. split; [reflexivity | exact H].
Qed.

Lemma match_star_unfold (t : list Glob.token) (s : list ascii) :
  Glob.match_tokens (Glob.Star :: t) s =
  Glob.match_tokens t s ||
  match s with
  | _ :: s' => Glob.match_tokens (Glob.Star :: t) s'
  | [] => false
  end.
Proof. destruct s; reflexivity. Qed.

Lemma match_star (t : list Glob.token) (s : list ascii) :
  Glob.match_tokens (Glob.Star :: t) s = true <->
  exists pre suf, s = (pre ++ suf)%list /\ Glob.match_tokens t suf = true.
Proof.
  induction s as [| c s IH]; rewrite match_star_unfold, orb_true_iff.
  - split.
    + intros [H | H]; [| discriminate]. exists [], []. split; [reflexivity | exact H].
    + intros [pre [suf [E H]]]. left.
      symmetry in E. apply app_eq_nil in E as [_ ->]. exact H.
  - rewrite IH. split.
    + intros [H | [pre [suf [-> H]]]].
      * exists [], (c :: s). split; [reflexivity | exact H].
      * exists (c :: pre), suf. split; [reflexivity | exact H].
    + intros [[| d pre] [suf [E H]]]; simpl in E.
      * left. subst suf. exact H.
      * right. injection E as _ ->. exists pre, suf. split; [reflexivity | exact H].
Qed.

Lemma match_alt (alts : list (list ascii)) (t : list Glob.token) (s : list ascii) :
  Glob.match_tokens (Glob.Alt alts :: t) s = true <->
  exists a suf, In a alts /\ s = (a ++ suf)%list /\ Glob.match_tokens t suf = true.
Proof.
  simpl. rewrite existsb_exists. split.
  - intros [a [Hin H]].
    destruct (Text.strip_prefix a s) as [suf |] eqn:E; [| discriminate].
    apply strip_prefix_app in E. exists a, suf. auto.
  - intros [a [suf [Hin [E H]]]]. exists a. split; [exact Hin |].
    apply strip_prefix_app in E. rewrite E. exact H.
Qed.

Lemma match_literal (root s : list ascii) :
  Glob.match_tokens (map Glob.Lit root) s = true <-> s = root.
Proof.
  revert s. induction root as [| c root IH]; intro s; simpl map.
  - apply match_end.
  - rewrite match_lit. split.
    + intros [s' [-> H]]. apply IH in H. subst s'. reflexivity.
    + intros ->. exists root. split; [reflexivity | apply IH; reflexivity].
Qed.

(** A name matches [*.{a,b,...}] when it is a base, a dot and one of the
    alternatives. *)
Lemma match_any_dot_alt (alts : list (list ascii)) (name : list ascii) :
  Glob.match_tokens [Glob.Star; Glob.Lit "."; Glob.Alt alts] name = true <->
  exists base a, name = (base ++ "."%char :: a)%list /\ In a alts.
Proof.
  rewrite match_star. split.
  - intros [base [suf [-> H]]].
    apply match_lit in H as [s' [-> H]].
    apply match_alt in H as [a [suf [Hin [-> H]]]].
    apply match_end in H. subst suf. rewrite app_nil_r.
    exists base, a. split; [reflexivity | exact Hin].
  - intros [base [a [-> Hin]]].
    exists base, ("."%char :: a). split; [reflexivity |].
    apply match_lit. exists a. split; [reflexivity |].
    apply match_alt. exists a, []. rewrite app_nil_r.
    split; [exact Hin |]. split; reflexivity.
Qed.

Lemma match_globstar_unfold (ps : list Glob.segment) (path : list (list ascii)) :
  Glob.match_path (Glob.GlobStar :: ps) path =
  Glob.match_path ps path ||
  match path with
  | dir :: rest => negb (Glob.hidden dir) && Glob.match_path (Glob.GlobStar :: ps) rest
  | [] => false
  end.
Proof. destruct path; reflexivity. Qed.

Lemma match_globstar (ps : list Glob.segment) (path : list (list ascii)) :
  Glob.match_path (Glob.GlobStar :: ps) path = true <->
  exists dirs rest,
    path = (dirs ++ rest)%list /\
    Forall (fun d => Glob.hidden d = false) dirs /\
    Glob.match_path ps rest = true.
Proof.
  induction path as [| d path IH]; rewrite match_globstar_unfold, orb_true_iff.
  - split.
    + intros [H | H]; [| discriminate].
      exists [], []. split; [reflexivity |]. split; [constructor | exact H].
    + intros [dirs [rest [E [_ H]]]]. left.
      symmetry in E. apply app_eq_nil in E as [_ ->]. exact H.
  - rewrite andb_true_iff, negb_true_iff, IH. split.
    + intros [H | [Hd [dirs [rest [-> [Hv H]]]]]].
      * exists [], (d :: path). split; [reflexivity |]. split; [constructor | exact H].
      * exists (d :: dirs), rest. split; [reflexivity |].
        split; [constructor; assumption | exact H].
    + intros [[| d' dirs] [rest [E [Hv H]]]]; simpl in E.
      * left. subst rest. exact H.
      * right. injection E as <- ->. inversion Hv; subst.
        split; [assumption |]. exists dirs, rest. auto.
Qed.

(** The paths [root/**/*.{a,b,...}] matches. *)
Lemma match_root_any_depth (root : list ascii) (alts : list (list ascii))
    (path : list (list ascii)) :
  Glob.hidden root = false ->
  Glob.match_path
    [Glob.Seg (map Glob.Lit root); Glob.GlobStar;
     Glob.Seg [Glob.Star; Glob.Lit "."; Glob.Alt alts]] path = true <->
  exists dirs base a,
    path = (root :: dirs ++ [base ++ "."%char :: a])%list /\
    Forall (fun d => Glob.hidden d = false) dirs /\
    Glob.hidden (base ++ "."%char :: a)%list = false /\
    In a alts.
Proof.
  intro Hroot.
  change (Glob.match_path (Glob.Seg ?t :: ?ps) path)
    with (match path with
          | name :: rest => Glob.match_name t name && Glob.match_path ps rest
          | [] => false
          end).
  split.
  - destruct path as [| name rest]; [discriminate |].
    rewrite andb_true_iff. intros [Hname H].
    unfold Glob.match_name in Hname. apply andb_prop in Hname as [_ Hname].
    apply match_literal in Hname. subst name.
    apply match_globstar in H as [dirs [last [-> [Hv H]]]].
    destruct last as [| name [| ? ?]]; simpl in H; try discriminate.
    + rewrite andb_true_r in H. unfold Glob.match_name in H.
      apply andb_prop in H as [Hh H]. simpl in Hh. rewrite orb_false_r in Hh.
      apply negb_true_iff in Hh.
      apply match_any_dot_alt in H as [base [a [-> Hin]]].
      exists dirs, base, a. auto.
    + rewrite andb_false_r in H. discriminate.
  - intros [dirs [base [a [-> [Hv [Hh Hin]]]]]].
    apply andb_true_iff. split.
    + unfold Glob.match_name. rewrite Hroot. simpl negb. simpl orb.
      apply match_literal. reflexivity.
    + apply match_globstar. exists dirs, [(base ++ "."%char :: a)%list].
      split; [reflexivity |]. split; [exact Hv |].
      simpl. rewrite andb_true_r. unfold Glob.match_name.
      rewrite Hh. simpl negb. simpl orb.
      apply match_any_dot_alt. exists base, a. auto.
Qed.

(** ** The files the style configuration scans *)

(** X1. The content glob of the style configuration selects exactly the
    files that lie under [src], at any depth, with no hidden directory on
    the way and no hidden name, and whose name ends with a dot and one of
    astro, html, js, jsx, md, mdx, svelte, ts, tsx, vue. *)
Theorem content_glob_selects_exactly :
  forall (h : Js.host) (file : string),
  exists r : Tailwind.theme_record,
    Tailwind.theme h = Some r /\
    Forall (fun g =>
              Glob.matches g file = true <->
              Selection.under "src"
                ["astro"; "html"; "js"; "jsx"; "md"; "mdx"; "svelte"; "ts";
                 "tsx"; "vue"] file)
           (Tailwind.contentGlobs r).
Proof.
  intros h file. known (Tailwind.theme h).
  eexists. split; [reflexivity |]. cbn [Tailwind.contentGlobs].
  constructor; [| constructor].
  unfold Glob.matches, Selection.under.
  match goal with |- context [Glob.compile ?p] =>
    destruct (Glob.compile p) as [ps |] eqn:E; vm_compute in E;
      [injection E as E; subst ps | discriminate E]
  end.
  change (Glob.Seg [Glob.Lit "s"; Glob.Lit "r"; Glob.Lit "c"])
    with (Glob.Seg (map Glob.Lit (Text.chars "src"))).
  rewrite match_root_any_depth by reflexivity.
  split.
  - intros [dirs [base [a [E [Hv [Hh Hin]]]]]].
    exists dirs, base, (Text.text a). rewrite chars_text.
    split; [exact E |]. split; [exact Hv |]. split; [exact Hh |].
    simpl in Hin.
    repeat destruct Hin as [<- | Hin]; try contradiction; simpl; tauto.
  - intros [dirs [base [ext [E [Hv [Hh Hin]]]]]].
    exists dirs, base, (Text.chars ext).
    split; [exact E |]. split; [exact Hv |]. split; [exact Hh |].
    simpl in Hin.
    repeat destruct Hin as [<- | Hin]; try contradiction; simpl; tauto.
Qed.

(** ** Scope of the configuration modules *)

Lemma lookup_key {A : Type} (k : string) (l : list (string * A)) :
  existsb (String.eqb k) (Js.keys l) = true -> Js.lookup k l <> None.
Proof.
  induction l as [| [k' v] l IH]; simpl; [discriminate |].
  destruct (String.eqb k k'); [discriminate | exact IH].
Qed.

(** In a well-scoped module every called name is bound by an import. *)
Lemma well_scoped_bound (m : Js.module) :
  Scope.well_scoped m = true ->
  forall f : string, In f (Scope.called m) -> Js.lookup f (Js.imports m) <> None.
Proof.
  unfold Scope.well_scoped. intros Hs f Hf. apply lookup_key.
  rewrite forallb_forall in Hs. apply Hs. exact Hf.
Qed.

(** X3. [astro.config.mjs] imports exactly the two names its default
    export calls, [defineConfig] and [tailwind], each once, and uses no
    [require].  [tailwind.config.mjs] has no import and calls no function;
    it loads [@tailwindcss/typography] with [require], a name that no
    import of the module binds. *)
Theorem configuration_imports_are_the_calls :
  Js.imports Astro.config_module =
    [("defineConfig", "astro/config"); ("tailwind", "@astrojs/tailwind")] /\
  Scope.called Astro.config_module = Js.keys (Js.imports Astro.config_module) /\
  NoDup (Scope.called Astro.config_module) /\
  (forall f : string,
      In f (Scope.called Astro.config_module) ->
      Js.lookup f (Js.imports Astro.config_module) <> None) /\
  Scope.loaded Astro.config_module = [] /\
  Js.imports Tailwind.config_module = [] /\
  Scope.called Tailwind.config_module = [] /\
  Scope.loaded Tailwind.config_module = ["@tailwindcss/typography"] /\
  Js.lookup "require" (Js.imports Tailwind.config_module) = None.
Proof.
  repeat match goal with |- _ /\ _ => split end; try reflexivity.
  - apply distinct_NoDup. reflexivity.
  - apply well_scoped_bound. reflexivity.
Qed.

(** ** The outline of the article *)

Lemma nested_adjacent (ls : list nat) :
  forall above : nat,
    Outline.nested above ls = true ->
    forall (i x y : nat),
      nth_error ls i = Some x -> nth_error ls (S i) = Some y -> y <= S x.
Proof.
  induction ls as [| l ls IH]; intros above H i x y Hx Hy.
  - destruct i; discriminate.
  - simpl in H. apply andb_prop in H as [_ H].
    destruct i as [| i].
    + injection Hx as <-. destruct ls as [| l' ls]; [discriminate |].
      injection Hy as <-. simpl in H. apply andb_prop in H as [H _].
      apply Nat.leb_le in H. exact H.
    + apply (IH l H i x y); assumption.
Qed.

(** X4. The article's headings start at level 2 (the title is the
    front-matter's), stay within levels 2 to 4, and never skip a level:
    each heading is at most one level below the heading before it. *)
Theorem headings_never_skip_a_level :
  let body := FrontMatter.body BigQuery.lines in
  let ls := Outline.levels (FrontMatter.body_start BigQuery.lines) body in
  ls = [2; 3; 2; 3; 3; 3; 2; 3; 3; 2; 3; 4; 3; 2; 2; 3; 3; 4; 2; 2; 3; 3; 3;
        2; 3] /\
  Forall (fun l => 2 <= l <= 4) ls /\
  hd_error ls = Some 2 /\
  (forall (i x y : nat),
      nth_error ls i = Some x -> nth_error ls (S i) = Some y -> y <= S x).
Proof.
  cbv zeta.
  assert (Outline.levels (FrontMatter.body_start BigQuery.lines)
            (FrontMatter.body BigQuery.lines) =
          [2; 3; 2; 3; 3; 3; 2; 3; 3; 2; 3; 4; 3; 2; 2; 3; 3; 4; 2; 2; 3; 3;
           3; 2; 3]) as E by (vm_compute; reflexivity).
  rewrite E. split; [reflexivity |]. split; [| split; [reflexivity |]].
  - apply Forall_forall. intros l Hl. simpl in Hl.
    repeat destruct Hl as [<- | Hl]; try contradiction; lia.
  - apply (nested_adjacent _ 1). reflexivity.
Qed.

(** X5. The numbered sections of the article are numbered 1 to 8 in
    order, without gap or repetition; the only level-2 heading without a
    number is the closing [Final Thoughts], and no deeper heading is
    numbered. *)
Theorem sections_numbered_one_to_eight :
  let body := FrontMatter.body BigQuery.lines in
  let start := FrontMatter.body_start BigQuery.lines in
  Outline.section_numbers 2 start body = seq 1 8 /\
  map (fun x => snd (snd x))
      (filter (fun x => Nat.eqb (fst (snd x)) 2 &&
                        match Outline.section_number (snd (snd x)) with
                        | Some _ => false
                        | None => true
                        end)
              (Outline.headings start body)) = ["Final Thoughts"] /\
  Outline.section_numbers 3 start body = [] /\
  Outline.section_numbers 4 start body = [].
Proof.
  cbv zeta. repeat split; vm_compute; reflexivity.
Qed.

(** X6. The eight [---] lines of the body stand between blank lines, so
    each is a thematic break; no line of the article underlines the
    paragraph line before it, so there is no setext heading. *)
Theorem rules_stand_between_blank_lines :
  let body := FrontMatter.body BigQuery.lines in
  let start := FrontMatter.body_start BigQuery.lines in
  let ls := combine (Markdown.kinds body) body in
  map fst (Outline.breaks start "" ls) =
    [40; 89; 123; 172; 191; 254; 267; 310] /\
  Forall (fun b => snd b = true) (Outline.breaks start "" ls) /\
  Outline.underlines start None ls = [].
Proof.
  cbv zeta. split; [vm_compute; reflexivity |]. split; [| vm_compute; reflexivity].
  apply Forall_forall. apply (proj1 (forallb_forall snd _)).
  vm_compute. reflexivity.
Qed.

(** X7. The article holds twelve inline links, one on each of the lines
    323 to 334; every target is a valid absolute URL with scheme [https]
    and no port, every label is non-empty, and neither a target nor a
    label occurs twice. *)
Theorem citations_are_https_links :
  let body := FrontMatter.body BigQuery.lines in
  let ls := Outline.document_links (FrontMatter.body_start BigQuery.lines) body in
  map fst ls = seq 323 12 /\
  Forall (fun x => exists u : Url.url,
              Url.parse (snd (snd x)) = Some u /\
              Url.scheme u = "https" /\ Url.port u = None /\
              fst (snd x) <> "")
         ls /\
  NoDup (map (fun x => snd (snd x)) ls) /\
  NoDup (map (fun x => fst (snd x)) ls).
Proof.
  cbv zeta. split; [vm_compute; reflexivity |].
  split; [| split; apply distinct_NoDup; vm_compute; reflexivity].
  apply Forall_impl with
    (P := fun x : nat * (string * string) =>
            match Url.parse (snd (snd x)) with
            | Some u => String.eqb (Url.scheme u) "https" &&
                        match Url.port u with None => true | Some _ => false end &&
                        negb (String.eqb (fst (snd x)) "")
            | None => false
            end = true).
  - intros [n [label target]] H. cbn [fst snd] in *.
    destruct (Url.parse target) as [u |]; [| discriminate].
    exists u. apply andb_prop in H as [H Hl]. apply andb_prop in H as [Hs Hp].
    apply String.eqb_eq in Hs. apply negb_true_iff, String.eqb_neq in Hl.
    destruct (Url.port u); [discriminate |]. auto.
  - apply Forall_forall. apply forallb_forall. vm_compute. reflexivity.
Qed.

(** X8. Each of the seven code blocks is tagged [sql], has its
    parentheses balanced (none closes before it opens, none stays open)
    and ends with a semicolon. *)
Theorem code_blocks_are_complete_sql :
  let body := FrontMatter.body BigQuery.lines in
  let bs := Outline.document_blocks (FrontMatter.body_start BigQuery.lines) body in
  map (fun b => (Outline.opened_at b, List.length (Outline.code b))) bs =
    [(62, 8); (101, 9); (140, 13); (161, 8); (180, 8); (204, 9); (233, 18)] /\
  Forall (fun b => Outline.language b = "sql" /\
                   Outline.parens_balanced b = true /\
                   Outline.terminated b = true) bs.
Proof.
  cbv zeta. split; [vm_compute; reflexivity |].
  apply Forall_impl with
    (P := fun b => String.eqb (Outline.language b) "sql" &&
                   Outline.parens_balanced b && Outline.terminated b = true).
  - intros b H. apply andb_prop in H as [H Ht]. apply andb_prop in H as [Hl Hp].
    apply String.eqb_eq in Hl. auto.
  - apply Forall_forall. apply forallb_forall. vm_compute. reflexivity.
Qed.

Example span_across_lines_refused :
  Outline.left_open ("a ``` x `") = Some 3 /\
  Outline.left_open ("``` y ` z") = Some 3 /\
  Outline.left_open ("a `` x ` y `` z") = None /\
  Outline.left_open ("`a` `b") = Some 1.
Proof. repeat split. Qed.


(** ** The palette and the font stack *)

(** X10. The palette agrees with its comments: the dimmed text colour
    lies strictly between the background and the text colour in every
    channel, green is the strongest channel of the accent (soft green),
    and blue the strongest of the background (deep blue-grey). *)
Theorem palette_matches_its_comments :
  forall h : Js.host,
  exists (r : Tailwind.theme_record) (bg fg accent dim : Palette.rgb),
    Tailwind.theme h = Some r /\
    Palette.token r "bg" = Some bg /\
    Palette.token r "fg" = Some fg /\
    Palette.token r "accent" = Some accent /\
    Palette.token r "dim" = Some dim /\
    Palette.darker bg dim /\
    Palette.darker dim fg /\
    Palette.red accent < Palette.green accent /\
    Palette.blue accent < Palette.green accent /\
    Palette.red bg < Palette.blue bg /\
    Palette.green bg < Palette.blue bg.
Proof.
  intro h. known (Tailwind.theme h).
  eexists.
  exists {| Palette.red := 26; Palette.green := 27; Palette.blue := 38 |},
         {| Palette.red := 169; Palette.green := 177; Palette.blue := 214 |},
         {| Palette.red := 158; Palette.green := 206; Palette.blue := 106 |},
         {| Palette.red := 86; Palette.green := 95; Palette.blue := 137 |}.
  split; [reflexivity |].
  do 4 (split; [vm_compute; reflexivity |]).
  unfold Palette.darker. simpl. lia.
Qed.

(** X11. In the [mono] font stack a family name is written between
    double quotes exactly when it is not a generic CSS family: the two
    names with a space are quoted, and [monospace] is bare. *)
Theorem font_names_quoted_unless_generic :
  forall h : Js.host,
  exists (r : Tailwind.theme_record) (stack : list string),
    Tailwind.theme h = Some r /\
    Tailwind.mono_stack r = Some stack /\
    Forall (fun name =>
              (Fonts.generic name = true <-> Fonts.quoted name = false) /\
              (Fonts.has_space name = true -> Fonts.quoted name = true))
           stack /\
    map Fonts.generic stack = [false; false; true].
Proof.
  intro h. known (Tailwind.theme h).
  eexists. exists [Text.q "JetBrains Mono"; Text.q "Fira Code"; "monospace"].
  split; [reflexivity |]. split; [vm_compute; reflexivity |].
  split; [| vm_compute; reflexivity].
  repeat constructor; vm_compute; congruence.
Qed.
